(** * AlphaFit backend: the domain computation and aggregation layer

    A shallow embedding of [backend/server.py]: the derivation formulas
    (BMI, daily calories, nutrition scaling, calorie burn), the session
    tokens, registration, the log routes and the day-window retrieval
    routes.

    Conventions.
    - Python [float] is IEEE binary64, embedded as Rocq's primitive
      [float]; Python [int] is [Z]; a [str] enum member is its string
      value.  An operation that can raise returns a [result].
    - A handler takes the store as an argument, and returns the new
      store when it writes.  What the code draws from its surroundings
      (generated ids and salts, clock readings) is an argument too.
    - A naive [datetime] is a count of microseconds; the clock of the
      session tokens is read in whole seconds, the resolution of the
      [exp] claim.
    - The libraries the code calls are embedded by their documented
      behaviour: the token library by the order of its checks over an
      arbitrary keyed hash, the password hash and the two float
      accumulators ([$sum] of the store, builtin [sum]) as parameters. *)

From Stdlib Require Import ZArith List String Bool Lia Floats.
From stdpp Require Import base option gmap strings.

Set Warnings "-inexact-float".
#[local] Open Scope string_scope.
#[local] Open Scope Z_scope.

(* ================================================================== *)
(** * Exceptions and results *)

(** The exceptions the modelled code can raise.  The four token errors
    are the library's; [HTTPException] is the one the handlers raise. *)
Inductive exn : Type :=
  | ZeroDivisionError
  | OverflowError
  | ValueError
  | KeyError (key : string)
  | DecodeError
  | InvalidAlgorithmError
  | InvalidSignatureError
  | ExpiredSignatureError
  | HTTPException (status_code : Z) (detail : string).

Inductive result (A : Type) : Type :=
  | Ok (a : A)
  | Raise (e : exn).
Arguments Ok {A} a.
Arguments Raise {A} e.

Definition bind {A B} (r : result A) (k : A -> result B) : result B :=
  match r with
  | Ok a => k a
  | Raise e => Raise e
  end.

Notation "x <- r ;; k" := (bind r (fun x => k))
  (at level 100, r at next level, right associativity).

Definition is_ok {A} (r : result A) : bool :=
  match r with Ok _ => true | Raise _ => false end.

Definition ok_value {A} (r : result A) : option A :=
  match r with Ok a => Some a | Raise _ => None end.

(* ================================================================== *)
(** * Python numbers *)

Module Py.

(** [float(n)] and the implicit conversion of an [int] operand in mixed
    arithmetic: correctly rounded (half to even); an [int] too large
    for a double raises. *)
Definition int_to_float (n : Z) : result float :=
  let f := SF2Prim (binary_normalize prec emax n 0 false) in
  if is_infinity f then Raise OverflowError else Ok f.

(** A small [int] literal as a double (exact below 2^53). *)
Definition lit (n : Z) : float :=
  SF2Prim (binary_normalize prec emax n 0 false).

(** Truth value of a number: zero of either sign is false, everything
    else (NaN included) is true. *)
Definition float_truthy (x : float) : bool := negb (x =? 0)%float.
Definition int_truthy (n : Z) : bool := negb (n =? 0).

(** [x / y] on floats: a zero divisor raises. *)
Definition truediv (x y : float) : result float :=
  if (y =? 0)%float then Raise ZeroDivisionError else Ok (x / y)%float.

(** [x ** 2] on floats: the square, correctly rounded; overflow of a
    finite base raises, underflow gives zero. *)
Definition pow2 (x : float) : result float :=
  let y := (x * x)%float in
  if is_finite x && is_infinity y then Raise OverflowError else Ok y.

(** The integer part of a finite double with magnitude [m * 2^e]. *)
Definition trunc_mag (m : positive) (e : Z) : Z :=
  if 0 <=? e then Z.pos m * 2 ^ e else Z.pos m / 2 ^ (- e).

(** [int(x)]: truncation toward zero. *)
Definition float_to_int (x : float) : result Z :=
  match Prim2SF x with
  | S754_nan => Raise ValueError
  | S754_infinity _ => Raise OverflowError
  | S754_zero _ => Ok 0
  | S754_finite s m e => Ok (cond_Zopp s (trunc_mag m e))
  end.

(** [m * 2^e] scaled by 100 and rounded to the nearest integer, ties
    to even. *)
Definition centi_mag (m : positive) (e : Z) : Z :=
  if 0 <=? e then 100 * Z.pos m * 2 ^ e
  else
    let num := 100 * Z.pos m in
    let den := 2 ^ (- e) in
    let q := num / den in
    let r := num mod den in
    match 2 * r ?= den with
    | Lt => q
    | Gt => q + 1
    | Eq => if Z.even q then q else q + 1
    end.

(** [round(x, 2)]: the double nearest to [x] rounded to two decimals
    (exact value, ties to even); the sign of [x] is kept, and
    non-finite values and values too large to have decimals round to
    themselves. *)
Definition round2 (x : float) : float :=
  match Prim2SF x with
  | S754_finite s m e =>
      let n := centi_mag m e in
      if n <? 2 ^ 53 then
        let r := (lit n / 100)%float in
        if s then (- r)%float else r
      else x
  | _ => x
  end.

End Py.

(* ================================================================== *)
(** * Enumerations *)

(** [ActivityLevel], [GoalType] and [ExerciseType] are [str] enums: a
    member is equal to, and hashes as, its string value, so a value is
    embedded as that string. *)
Definition SEDENTARY : string := "sedentary".
Definition LIGHTLY_ACTIVE : string := "lightly_active".
Definition MODERATELY_ACTIVE : string := "moderately_active".
Definition VERY_ACTIVE : string := "very_active".
Definition EXTREMELY_ACTIVE : string := "extremely_active".

(** Naive datetimes: microseconds since 0001-01-01T00:00:00. *)
Definition datetime : Type := Z.

(* ================================================================== *)
(** * Models *)

Module User.
Record t : Type := mk {
  id : string;
  username : string;
  email : string;
  full_name : string;
  age : Z;
  height : float;
  weight : float;
  goal_type : string;
  activity_level : string;
  created_at : datetime;
  updated_at : datetime
}.
End User.

Module UserCreate.
Record t : Type := mk {
  username : string;
  email : string;
  password : string;
  full_name : string;
  age : Z;
  height : float;
  weight : float;
  goal_type : string;
  activity_level : string
}.
End UserCreate.

(** A document of the [users] collection: the [User] fields and the
    password hash. *)
Module UserDoc.
Record t : Type := mk {
  user : User.t;
  password_hash : string
}.
End UserDoc.

Module UserProfile.
Record t : Type := mk {
  id : string;
  username : string;
  email : string;
  full_name : string;
  age : Z;
  height : float;
  weight : float;
  goal_type : string;
  activity_level : string;
  bmi : float;
  daily_calories : Z
}.
End UserProfile.

Module FoodItem.
Record t : Type := mk {
  id : string;
  name : string;
  calories_per_100g : float;
  protein_per_100g : float;
  carbs_per_100g : float;
  fat_per_100g : float;
  fiber_per_100g : option float;
  created_at : datetime
}.
End FoodItem.

Module MealEntry.
Record t : Type := mk {
  id : string;
  user_id : string;
  food_item_id : string;
  food_name : string;
  quantity : float;
  calories : float;
  protein : float;
  carbs : float;
  fat : float;
  meal_type : string;
  logged_at : datetime
}.
End MealEntry.

Module MealEntryCreate.
Record t : Type := mk {
  food_item_id : string;
  quantity : float;
  meal_type : string
}.
End MealEntryCreate.

Module Exercise.
Record t : Type := mk {
  id : string;
  name : string;
  type : string;
  muscle_groups : list string;
  description : string;
  instructions : list string;
  calories_per_minute : float;
  created_at : datetime
}.
End Exercise.

Module WorkoutEntry.
Record t : Type := mk {
  id : string;
  user_id : string;
  exercise_id : string;
  exercise_name : string;
  duration : Z;
  calories_burned : float;
  sets : option Z;
  reps : option Z;
  weight : option float;
  notes : option string;
  completed_at : datetime
}.
End WorkoutEntry.

Module WorkoutEntryCreate.
Record t : Type := mk {
  exercise_id : string;
  duration : Z;
  sets : option Z;
  reps : option Z;
  weight : option float;
  notes : option string
}.
End WorkoutEntryCreate.

Module Goal.
Record t : Type := mk {
  id : string;
  user_id : string;
  goal_type : string;
  target_weight : option float;
  target_date : option datetime;
  current_progress : float;
  is_achieved : bool;
  created_at : datetime;
  updated_at : datetime
}.
End Goal.

(* ================================================================== *)
(** * The store *)

(** One list per collection, in insertion order: [insert_one] appends,
    [find_one] returns the first match, [find(...).to_list(n)] the first
    [n] matches. *)
Module Db.
Record t : Type := mk {
  users : list UserDoc.t;
  food_items : list FoodItem.t;
  meal_entries : list MealEntry.t;
  exercises : list Exercise.t;
  workout_entries : list WorkoutEntry.t;
  goals : list Goal.t
}.

Definition empty : t := mk [] [] [] [] [] [].

Definition insert_user (d : UserDoc.t) (db : t) : t :=
  mk (users db ++ [d]) (food_items db) (meal_entries db)
     (exercises db) (workout_entries db) (goals db).

Definition insert_meal_entry (e : MealEntry.t) (db : t) : t :=
  mk (users db) (food_items db) (meal_entries db ++ [e])
     (exercises db) (workout_entries db) (goals db).

Definition insert_workout_entry (e : WorkoutEntry.t) (db : t) : t :=
  mk (users db) (food_items db) (meal_entries db)
     (exercises db) (workout_entries db ++ [e]) (goals db).
End Db.

Definition find_one {A} (q : A -> bool) (coll : list A) : option A :=
  List.find q coll.

Definition to_list {A} (n : nat) (cursor : list A) : list A :=
  firstn n cursor.

Definition find_to_list {A} (q : A -> bool) (n : nat) (coll : list A) : list A :=
  to_list n (List.filter q coll).

(* ================================================================== *)
(** * Time *)

Definition us_per_day : Z := 86400000000.

(** [timedelta(days=1)]. *)
Definition one_day : Z := us_per_day.

(** [dt.replace(hour=0, minute=0, second=0, microsecond=0)]. *)
Definition at_midnight (dt : datetime) : datetime := dt - dt mod us_per_day.

(** The [date] query parameter, by what [datetime.fromisoformat] makes
    of it. *)
Inductive date_param : Type :=
  | DateEmpty                      (* the empty string *)
  | DateOnly (day : Z)             (* YYYY-MM-DD: a calendar date, as days since 0001-01-01 *)
  | DateWithTime (t : datetime)    (* a date followed by a time of day *)
  | DateMalformed.                 (* not in ISO format *)

Definition str_truthy (d : date_param) : bool :=
  match d with DateEmpty => false | _ => true end.

Definition fromisoformat (d : date_param) : result datetime :=
  match d with
  | DateOnly day => Ok (day * us_per_day)
  | DateWithTime t => Ok t
  | DateEmpty | DateMalformed => Raise ValueError
  end.

(* ================================================================== *)
(** * Session tokens *)

Module Jwt.
(** The payload of a token: the two claims the code writes and reads.
    [exp] is a NumericDate, in whole seconds. *)
Record claims : Type := mk_claims {
  user_id : option string;
  exp : option Z
}.

(** A presented bearer string, by what the decoder makes of it: three
    well-formed segments (header algorithm, payload, signature), or
    anything else. *)
Inductive token : Type :=
  | Compact (alg : string) (payload : claims) (signature : string)
  | Malformed (raw : string).
End Jwt.

Definition JWT_ALGORITHM : string := "HS256".

(** Subclasses of the library's [InvalidTokenError]. *)
Definition is_invalid_token_error (e : exn) : bool :=
  match e with
  | DecodeError | InvalidAlgorithmError | InvalidSignatureError
  | ExpiredSignatureError => true
  | _ => false
  end.

(* ================================================================== *)
(** * Utility functions: the derivation formulas *)

(** [calculate_bmi]: [round(weight / ((height / 100) ** 2), 2)]. *)
Definition calculate_bmi (weight height : float) : result float :=
  h <- Py.truediv height (Py.lit 100) ;;
  d <- Py.pow2 h ;;
  q <- Py.truediv weight d ;;
  Ok (Py.round2 q).

(** The dict literal of [calculate_daily_calories]. *)
Definition activity_multiplier : gmap string float :=
  <[ SEDENTARY := 1.2%float ]>
  (<[ LIGHTLY_ACTIVE := 1.375%float ]>
  (<[ MODERATELY_ACTIVE := 1.55%float ]>
  (<[ VERY_ACTIVE := 1.725%float ]>
  (<[ EXTREMELY_ACTIVE := 1.9%float ]> ∅)))).

(** [calculate_daily_calories]. *)
Definition calculate_daily_calories (user : User.t) : result Z :=
  if Py.int_truthy (User.age user)
     && Py.float_truthy (User.weight user)
     && Py.float_truthy (User.height user)
  then
    a <- Py.int_to_float (5 * User.age user) ;;
    let bmr :=
      (Py.lit 10 * User.weight user + 6.25 * User.height user - a + Py.lit 5)%float in
    let daily_calories :=
      (bmr * default 1.2%float (activity_multiplier !! User.activity_level user))%float in
    Py.float_to_int daily_calories
  else Ok 2000.

(* ================================================================== *)
(** * Replies of the summary routes *)

Module NutritionSummary.
Record t : Type := mk {
  total_calories : float;
  total_protein : float;
  total_carbs : float;
  total_fat : float;
  meal_count : Z
}.
End NutritionSummary.

Module WorkoutStats.
Record t : Type := mk {
  total_calories_burned : float;
  total_workout_time : Z;
  workout_count : Z
}.
End WorkoutStats.

Module Dashboard.
Record t : Type := mk {
  nutrition : NutritionSummary.t;
  workouts : WorkoutStats.t;
  active_goals_count : Z
}.
End Dashboard.

Section Backend.

(** The environment: the signing secret, the keyed hash of the token
    library (key, header algorithm, payload), the password hash
    (password, salt), and the two float accumulators the code leaves to
    the store's [$sum] and to the builtin [sum]. *)
Variable JWT_SECRET : string.
Variable hmac_sha256 : string -> string -> Jwt.claims -> string.
Variable bcrypt_hashpw : string -> string -> string.
Variable mongo_sum : list float -> float.
Variable py_sum : list float -> float.

(** ** Utility functions *)

Definition hash_password (password salt : string) : string :=
  bcrypt_hashpw password salt.

(** [jwt.encode(payload, key, algorithm=...)]. *)
Definition jwt_encode (payload : Jwt.claims) (key algorithm : string) : Jwt.token :=
  Jwt.Compact algorithm payload (hmac_sha256 key algorithm payload).

(** [jwt.decode(token, key, algorithms=[...])] at clock reading [now]
    (seconds): segments, then algorithm, then signature, then expiry. *)
Definition jwt_decode (token : Jwt.token) (key : string)
    (algorithms : list string) (now : Z) : result Jwt.claims :=
  match token with
  | Jwt.Malformed _ => Raise DecodeError
  | Jwt.Compact alg payload signature =>
      if negb (existsb (String.eqb alg) algorithms) then Raise InvalidAlgorithmError
      else if negb (String.eqb signature (hmac_sha256 key alg payload))
      then Raise InvalidSignatureError
      else match Jwt.exp payload with
           | Some e => if e <=? now then Raise ExpiredSignatureError else Ok payload
           | None => Ok payload
           end
  end.

(** [create_jwt_token]; [utcnow] is the clock reading, in seconds. *)
Definition create_jwt_token (user_id : string) (utcnow : Z) : Jwt.token :=
  let payload := Jwt.mk_claims (Some user_id) (Some (utcnow + 24 * 3600)) in
  jwt_encode payload JWT_SECRET JWT_ALGORITHM.

(** [verify_jwt_token]. *)
Definition verify_jwt_token (token : Jwt.token) (now : Z) : result string :=
  match jwt_decode token JWT_SECRET [JWT_ALGORITHM] now with
  | Ok payload =>
      match Jwt.user_id payload with
      | Some u => Ok u
      | None => Raise (KeyError "user_id")
      end
  | Raise ExpiredSignatureError => Raise (HTTPException 401 "Token expired")
  | Raise e =>
      if is_invalid_token_error e then Raise (HTTPException 401 "Invalid token")
      else Raise e
  end.

(** ** Authentication routes *)

(** [register_user].  [new_id] is the generated uuid, [created] and
    [updated] the two clock readings of the model's defaults, [salt]
    the generated salt, [utcnow] the clock reading of the token. *)
Definition register_user (user_data : UserCreate.t) (new_id : string)
    (created updated : datetime) (salt : string) (utcnow : Z) (db : Db.t)
    : result (Jwt.token * UserProfile.t) * Db.t :=
  let existing_user :=
    find_one (fun d =>
        String.eqb (User.username (UserDoc.user d)) (UserCreate.username user_data)
        || String.eqb (User.email (UserDoc.user d)) (UserCreate.email user_data))
      (Db.users db) in
  match existing_user with
  | Some _ => (Raise (HTTPException 400 "Username or email already exists"), db)
  | None =>
      let hashed_password := hash_password (UserCreate.password user_data) salt in
      let user :=
        User.mk new_id (UserCreate.username user_data) (UserCreate.email user_data)
          (UserCreate.full_name user_data) (UserCreate.age user_data)
          (UserCreate.height user_data) (UserCreate.weight user_data)
          (UserCreate.goal_type user_data) (UserCreate.activity_level user_data)
          created updated in
      let db' := Db.insert_user (UserDoc.mk user hashed_password) db in
      let token := create_jwt_token (User.id user) utcnow in
      (bmi <- calculate_bmi (User.weight user) (User.height user) ;;
       daily_calories <- calculate_daily_calories user ;;
       Ok (token,
           UserProfile.mk (User.id user) (User.username user) (User.email user)
             (User.full_name user) (User.age user) (User.height user)
             (User.weight user) (User.goal_type user) (User.activity_level user)
             bmi daily_calories),
       db')
  end.

(** ** Food routes *)

Definition get_food_items (db : Db.t) : list FoodItem.t :=
  find_to_list (fun _ => true) 1000 (Db.food_items db).

Definition log_meal (meal_data : MealEntryCreate.t) (current_user_id : string)
    (new_id : string) (utcnow : datetime) (db : Db.t)
    : result MealEntry.t * Db.t :=
  match find_one
          (fun f => String.eqb (FoodItem.id f) (MealEntryCreate.food_item_id meal_data))
          (Db.food_items db) with
  | None => (Raise (HTTPException 404 "Food item not found"), db)
  | Some food_item =>
      match Py.truediv (MealEntryCreate.quantity meal_data) (Py.lit 100) with
      | Raise e => (Raise e, db)
      | Ok quantity_ratio =>
          let calories := (FoodItem.calories_per_100g food_item * quantity_ratio)%float in
          let protein := (FoodItem.protein_per_100g food_item * quantity_ratio)%float in
          let carbs := (FoodItem.carbs_per_100g food_item * quantity_ratio)%float in
          let fat := (FoodItem.fat_per_100g food_item * quantity_ratio)%float in
          let meal_entry :=
            MealEntry.mk new_id current_user_id
              (MealEntryCreate.food_item_id meal_data) (FoodItem.name food_item)
              (MealEntryCreate.quantity meal_data)
              (Py.round2 calories) (Py.round2 protein) (Py.round2 carbs) (Py.round2 fat)
              (MealEntryCreate.meal_type meal_data) utcnow in
          (Ok meal_entry, Db.insert_meal_entry meal_entry db)
      end
  end.

Definition get_meal_log (date : option date_param) (current_user_id : string)
    (now : datetime) (db : Db.t) : result (list MealEntry.t) :=
  start_date <-
    match date with
    | Some d => if str_truthy d then fromisoformat d else Ok (at_midnight now)
    | None => Ok (at_midnight now)
    end ;;
  let end_date := start_date + one_day in
  Ok (find_to_list
        (fun e => String.eqb (MealEntry.user_id e) current_user_id
                  && (start_date <=? MealEntry.logged_at e)
                  && (MealEntry.logged_at e <? end_date))
        1000 (Db.meal_entries db)).

Definition get_daily_nutrition_summary (date : option date_param)
    (current_user_id : string) (now : datetime) (db : Db.t)
    : result NutritionSummary.t :=
  start_date <-
    match date with
    | Some d => if str_truthy d then fromisoformat d else Ok (at_midnight now)
    | None => Ok (at_midnight now)
    end ;;
  let end_date := start_date + one_day in
  let matched :=
    List.filter
      (fun e => String.eqb (MealEntry.user_id e) current_user_id
                && (start_date <=? MealEntry.logged_at e)
                && (MealEntry.logged_at e <? end_date))
      (Db.meal_entries db) in
  match matched with
  | _ :: _ =>
      Ok (NutritionSummary.mk
            (mongo_sum (map MealEntry.calories matched))
            (mongo_sum (map MealEntry.protein matched))
            (mongo_sum (map MealEntry.carbs matched))
            (mongo_sum (map MealEntry.fat matched))
            (Z.of_nat (length matched)))
  | [] => Ok (NutritionSummary.mk 0 0 0 0 0)
  end.

(** ** Exercise and workout routes *)

Definition get_exercises (exercise_type : option string) (db : Db.t)
    : list Exercise.t :=
  let query :=
    match exercise_type with
    | Some ty => fun x => String.eqb (Exercise.type x) ty
    | None => fun _ => true
    end in
  find_to_list query 1000 (Db.exercises db).

Definition log_workout (workout_data : WorkoutEntryCreate.t)
    (current_user_id : string) (new_id : string) (utcnow : datetime) (db : Db.t)
    : result WorkoutEntry.t * Db.t :=
  match find_one
          (fun x => String.eqb (Exercise.id x) (WorkoutEntryCreate.exercise_id workout_data))
          (Db.exercises db) with
  | None => (Raise (HTTPException 404 "Exercise not found"), db)
  | Some exercise =>
      match Py.int_to_float (WorkoutEntryCreate.duration workout_data) with
      | Raise e => (Raise e, db)
      | Ok minutes =>
          let calories_burned := (Exercise.calories_per_minute exercise * minutes)%float in
          let workout_entry :=
            WorkoutEntry.mk new_id current_user_id
              (WorkoutEntryCreate.exercise_id workout_data) (Exercise.name exercise)
              (WorkoutEntryCreate.duration workout_data)
              (Py.round2 calories_burned)
              (WorkoutEntryCreate.sets workout_data) (WorkoutEntryCreate.reps workout_data)
              (WorkoutEntryCreate.weight workout_data) (WorkoutEntryCreate.notes workout_data)
              utcnow in
          (Ok workout_entry, Db.insert_workout_entry workout_entry db)
      end
  end.

Definition get_workout_log (date : option date_param) (current_user_id : string)
    (now : datetime) (db : Db.t) : result (list WorkoutEntry.t) :=
  start_date <-
    match date with
    | Some d => if str_truthy d then fromisoformat d else Ok (at_midnight now)
    | None => Ok (at_midnight now)
    end ;;
  let end_date := start_date + one_day in
  Ok (find_to_list
        (fun e => String.eqb (WorkoutEntry.user_id e) current_user_id
                  && (start_date <=? WorkoutEntry.completed_at e)
                  && (WorkoutEntry.completed_at e <? end_date))
        1000 (Db.workout_entries db)).

(** ** Goal routes and the dashboard *)

Definition get_user_goals (current_user_id : string) (db : Db.t) : list Goal.t :=
  find_to_list (fun g => String.eqb (Goal.user_id g) current_user_id)
    1000 (Db.goals db).

(** [get_dashboard_stats] reads the clock itself ([now]) and once more
    inside the nested summary call ([now']). *)
Definition get_dashboard_stats (current_user_id : string) (now now' : datetime)
    (db : Db.t) : result Dashboard.t :=
  let today := at_midnight now in
  let tomorrow := today + one_day in
  nutrition_summary <- get_daily_nutrition_summary None current_user_id now' db ;;
  let workout_entries :=
    find_to_list
      (fun e => String.eqb (WorkoutEntry.user_id e) current_user_id
                && (today <=? WorkoutEntry.completed_at e)
                && (WorkoutEntry.completed_at e <? tomorrow))
      1000 (Db.workout_entries db) in
  let total_workout_calories := py_sum (map WorkoutEntry.calories_burned workout_entries) in
  let workout_time := fold_left Z.add (map WorkoutEntry.duration workout_entries) 0 in
  let active_goals :=
    find_to_list
      (fun g => String.eqb (Goal.user_id g) current_user_id
                && Bool.eqb (Goal.is_achieved g) false)
      1000 (Db.goals db) in
  Ok (Dashboard.mk nutrition_summary
        (WorkoutStats.mk (Py.round2 total_workout_calories) workout_time
           (Z.of_nat (length workout_entries)))
        (Z.of_nat (length active_goals))).

End Backend.

(* ================================================================== *)
(** * The specification's words *)

(** The activity coefficient, as the specification tabulates it. *)
Definition activity_coefficient (level : string) : float :=
  if String.eqb level "sedentary" then 1.2%float
  else if String.eqb level "lightly_active" then 1.375%float
  else if String.eqb level "moderately_active" then 1.55%float
  else if String.eqb level "very_active" then 1.725%float
  else if String.eqb level "extremely_active" then 1.9%float
  else 1.2%float.


(** The account of the specification's worked example. *)
Definition example_user : User.t :=
  User.mk "id" "sam" "sam@example.com" "Sam" 25 175 70 "maintenance"
    MODERATELY_ACTIVE 0 0.

(** [scaleNutrition], one field: density x quantity/100, rounded to 2
    decimals. *)
Definition scaleNutrition (density quantityGrams : float) : float :=
  Py.round2 (density * (quantityGrams / 100))%float.

(** [calorieBurn]: rate x duration, rounded to 2 decimals. *)
Definition calorieBurn (ratePerMinute durationMinutes : float) : float :=
  Py.round2 (ratePerMinute * durationMinutes)%float.

(** [dayWindow]: from 00:00:00 of the supplied calendar date, or of the
    current day when none is supplied, to 24 hours later. *)
Definition dayWindow (date : option Z) (now : datetime) : datetime * datetime :=
  let dayStart :=
    match date with
    | Some day => day * us_per_day
    | None => now / us_per_day * us_per_day
    end in
  (dayStart, dayStart + 24 * 3600 * 1000000).

(** Membership in a half-open window. *)
Definition in_window (w : datetime * datetime) (t : datetime) : bool :=
  (fst w <=? t) && (t <? snd w).

(** The entries of one account inside a window. *)
Definition owned_in_window {A} (owner : A -> string) (stamp : A -> datetime)
    (account : string) (w : datetime * datetime) (e : A) : bool :=
  String.eqb (owner e) account && in_window w (stamp e).

(** [aggregateNutrition] over the entries already selected. *)
Definition aggregateNutrition (sum : list float -> float)
    (entries : list MealEntry.t) : NutritionSummary.t :=
  match entries with
  | [] => NutritionSummary.mk 0 0 0 0 0
  | _ =>
      NutritionSummary.mk
        (sum (map MealEntry.calories entries))
        (sum (map MealEntry.protein entries))
        (sum (map MealEntry.carbs entries))
        (sum (map MealEntry.fat entries))
        (Z.of_nat (length entries))
  end.

(** [aggregateWorkouts] over the entries already selected. *)
Definition aggregateWorkouts (sum : list float -> float)
    (entries : list WorkoutEntry.t) : WorkoutStats.t :=
  WorkoutStats.mk
    (Py.round2 (sum (map WorkoutEntry.calories_burned entries)))
    (fold_left Z.add (map WorkoutEntry.duration entries) 0)
    (Z.of_nat (length entries)).


(** The error of a registration under a taken username or email. *)
Definition conflict : exn := HTTPException 400 "Username or email already exists".

(* ================================================================== *)
(** * Sample data *)

(** Stand-ins for the keyed hash, the password hash and the float
    accumulators, to run the handlers on concrete inputs. *)
Definition sample_hmac (key alg : string) (payload : Jwt.claims) : string :=
  key ++ "." ++ alg ++ "." ++ default "" (Jwt.user_id payload).

Definition sample_hashpw (password salt : string) : string :=
  salt ++ "$" ++ password.

Definition sample_sum (xs : list float) : float :=
  fold_left PrimFloat.add xs 0%float.

Definition chicken_breast : FoodItem.t :=
  FoodItem.mk "food-1" "Chicken Breast" 165 31 0 3.6 (Some 0%float) 0.

Definition push_ups : Exercise.t :=
  Exercise.mk "ex-1" "Push-ups" "strength" ["chest"; "triceps"; "shoulders"]
    "Classic bodyweight exercise"
    ["Start in plank position"; "Lower body to ground"; "Push back up"] 8 0.

Definition seeded_db : Db.t :=
  Db.mk [] [chicken_breast] [] [push_ups] [] [].

Definition sam : UserCreate.t :=
  UserCreate.mk "sam" "sam@example.com" "pw-1" "Sam" 25 175 70 "maintenance"
    MODERATELY_ACTIVE.

(** Another request with the username of [sam] and nothing else in
    common. *)
Definition sam_again : UserCreate.t :=
  UserCreate.mk "sam" "other@example.com" "pw-2" "Samuel" 40 180 82 "weight_loss"
    SEDENTARY.

(** Day 738000 and its two ends. *)
Definition sample_day : Z := 738000.
Definition sample_day_start : datetime := sample_day * us_per_day.

Definition meal_at (id : string) (t : datetime) : MealEntry.t :=
  MealEntry.mk id "account-1" "food-1" "Chicken Breast" 100 165 31 0 3.6 "lunch" t.

(** Three meals of one account: at the start of the sample day, one
    microsecond before its end, and at its end. *)
Definition boundary_db : Db.t :=
  Db.mk [] [chicken_breast]
    [meal_at "meal-1" sample_day_start;
     meal_at "meal-2" (sample_day_start + us_per_day - 1);
     meal_at "meal-3" (sample_day_start + us_per_day)]
    [push_ups] [] [].

(* ================================================================== *)
(** * The other routes *)

Module UserLogin.
Record t : Type := mk {
  username : string;
  password : string
}.
End UserLogin.

Module FoodItemCreate.
Record t : Type := mk {
  name : string;
  calories_per_100g : float;
  protein_per_100g : float;
  carbs_per_100g : float;
  fat_per_100g : float;
  fiber_per_100g : option float
}.
End FoodItemCreate.

Module ExerciseCreate.
Record t : Type := mk {
  name : string;
  type : string;
  muscle_groups : list string;
  description : string;
  instructions : list string;
  calories_per_minute : float
}.
End ExerciseCreate.

Module GoalCreate.
Record t : Type := mk {
  goal_type : string;
  target_weight : option float;
  target_date : option datetime
}.
End GoalCreate.

Definition insert_food_item (f : FoodItem.t) (db : Db.t) : Db.t :=
  Db.mk (Db.users db) (Db.food_items db ++ [f]) (Db.meal_entries db)
    (Db.exercises db) (Db.workout_entries db) (Db.goals db).

Definition insert_exercise (x : Exercise.t) (db : Db.t) : Db.t :=
  Db.mk (Db.users db) (Db.food_items db) (Db.meal_entries db)
    (Db.exercises db ++ [x]) (Db.workout_entries db) (Db.goals db).

Definition insert_goal (g : Goal.t) (db : Db.t) : Db.t :=
  Db.mk (Db.users db) (Db.food_items db) (Db.meal_entries db)
    (Db.exercises db) (Db.workout_entries db) (Db.goals db ++ [g]).

(** The profile every authentication route replies with. *)
Definition profile_of (user : User.t) : result UserProfile.t :=
  bmi <- calculate_bmi (User.weight user) (User.height user) ;;
  daily_calories <- calculate_daily_calories user ;;
  Ok (UserProfile.mk (User.id user) (User.username user) (User.email user)
        (User.full_name user) (User.age user) (User.height user)
        (User.weight user) (User.goal_type user) (User.activity_level user)
        bmi daily_calories).

(** The sample catalogs of [create_seed_data]; [new_id] and [utcnow]
    give the id and the clock reading of the k-th model built. *)
Definition sample_foods (new_id : nat -> string) (utcnow : nat -> datetime)
    : list FoodItem.t :=
  [ FoodItem.mk (new_id 0%nat) "Chicken Breast" 165 31 0 3.6 (Some 0%float) (utcnow 0%nat);
    FoodItem.mk (new_id 1%nat) "Brown Rice" 111 2.6 23 0.9 (Some 0%float) (utcnow 1%nat);
    FoodItem.mk (new_id 2%nat) "Banana" 89 1.1 23 0.3 (Some 0%float) (utcnow 2%nat);
    FoodItem.mk (new_id 3%nat) "Oatmeal" 68 2.4 12 1.4 (Some 0%float) (utcnow 3%nat);
    FoodItem.mk (new_id 4%nat) "Salmon" 208 20 0 12 (Some 0%float) (utcnow 4%nat);
    FoodItem.mk (new_id 5%nat) "Sweet Potato" 86 1.6 20 0.1 (Some 0%float) (utcnow 5%nat);
    FoodItem.mk (new_id 6%nat) "Greek Yogurt" 59 10 3.6 0.4 (Some 0%float) (utcnow 6%nat);
    FoodItem.mk (new_id 7%nat) "Almonds" 579 21 22 50 (Some 0%float) (utcnow 7%nat) ].

Definition sample_exercises (new_id : nat -> string) (utcnow : nat -> datetime)
    : list Exercise.t :=
  [ Exercise.mk (new_id 8%nat) "Push-ups" "strength" ["chest"; "triceps"; "shoulders"]
      "Classic bodyweight exercise"
      ["Start in plank position"; "Lower body to ground"; "Push back up"]
      8 (utcnow 8%nat);
    Exercise.mk (new_id 9%nat) "Running" "cardio" ["legs"; "glutes"; "core"]
      "Cardiovascular running exercise"
      ["Maintain steady pace"; "Keep proper form"; "Breathe rhythmically"]
      12 (utcnow 9%nat);
    Exercise.mk (new_id 10%nat) "Squats" "strength" ["legs"; "glutes"; "core"]
      "Lower body strength exercise"
      ["Stand with feet shoulder-width apart"; "Lower hips back and down";
       "Return to standing"]
      6 (utcnow 10%nat);
    Exercise.mk (new_id 11%nat) "Plank" "strength" ["core"; "shoulders"]
      "Core strengthening exercise"
      ["Hold plank position"; "Keep body straight"; "Engage core muscles"]
      4 (utcnow 11%nat);
    Exercise.mk (new_id 12%nat) "Cycling" "cardio" ["legs"; "glutes"]
      "Low-impact cardio exercise"
      ["Maintain steady cadence"; "Keep proper posture"; "Adjust resistance as needed"]
      10 (utcnow 12%nat) ].

(** [create_seed_data]: each catalog is filled when, and only when, it
    is empty. *)
Definition create_seed_data (new_id : nat -> string) (utcnow : nat -> datetime)
    (db : Db.t) : Db.t :=
  let existing_foods := length (Db.food_items db) in
  let db1 :=
    if Nat.eqb existing_foods 0
    then fold_left (fun d food => insert_food_item food d) (sample_foods new_id utcnow) db
    else db in
  let existing_exercises := length (Db.exercises db1) in
  if Nat.eqb existing_exercises 0
  then fold_left (fun d exercise => insert_exercise exercise d)
         (sample_exercises new_id utcnow) db1
  else db1.

(** [create_food_item]. *)
Definition create_food_item (food_data : FoodItemCreate.t) (current_user_id : string)
    (new_id : string) (utcnow : datetime) (db : Db.t) : FoodItem.t * Db.t :=
  let food_item :=
    FoodItem.mk new_id (FoodItemCreate.name food_data)
      (FoodItemCreate.calories_per_100g food_data)
      (FoodItemCreate.protein_per_100g food_data)
      (FoodItemCreate.carbs_per_100g food_data)
      (FoodItemCreate.fat_per_100g food_data)
      (FoodItemCreate.fiber_per_100g food_data) utcnow in
  (food_item, insert_food_item food_item db).

(** [create_exercise]. *)
Definition create_exercise (exercise_data : ExerciseCreate.t) (current_user_id : string)
    (new_id : string) (utcnow : datetime) (db : Db.t) : Exercise.t * Db.t :=
  let exercise :=
    Exercise.mk new_id (ExerciseCreate.name exercise_data)
      (ExerciseCreate.type exercise_data) (ExerciseCreate.muscle_groups exercise_data)
      (ExerciseCreate.description exercise_data) (ExerciseCreate.instructions exercise_data)
      (ExerciseCreate.calories_per_minute exercise_data) utcnow in
  (exercise, insert_exercise exercise db).

(** [create_goal]; [created] and [updated] are the two clock readings of
    the model's defaults. *)
Definition create_goal (goal_data : GoalCreate.t) (current_user_id : string)
    (new_id : string) (created updated : datetime) (db : Db.t) : Goal.t * Db.t :=
  let goal :=
    Goal.mk new_id current_user_id (GoalCreate.goal_type goal_data)
      (GoalCreate.target_weight goal_data) (GoalCreate.target_date goal_data)
      0 false created updated in
  (goal, insert_goal goal db).


Section Accounts.

Variable JWT_SECRET : string.
Variable hmac_sha256 : string -> string -> Jwt.claims -> string.
Variable bcrypt_hashpw : string -> string -> string.

(** [verify_password]: [bcrypt.checkpw] hashes the password again under
    the salt the stored hash carries and compares (a stored hash being
    one [hash_password] produced). *)
Definition verify_password (password hashed : string) : bool :=
  String.eqb (bcrypt_hashpw password hashed) hashed.



(** [login_user]; [utcnow] is the clock reading of the token. *)
Definition login_user (login_data : UserLogin.t) (utcnow : Z) (db : Db.t)
    : result (Jwt.token * UserProfile.t) :=
  match find_one (fun d => String.eqb (User.username (UserDoc.user d))
                             (UserLogin.username login_data))
          (Db.users db) with
  | None => Raise (HTTPException 401 "Invalid credentials")
  | Some user_doc =>
      if negb (verify_password (UserLogin.password login_data)
                 (UserDoc.password_hash user_doc))
      then Raise (HTTPException 401 "Invalid credentials")
      else
        let token :=
          create_jwt_token JWT_SECRET hmac_sha256 (User.id (UserDoc.user user_doc)) utcnow in
        profile <- profile_of (UserDoc.user user_doc) ;;
        Ok (token, profile)
  end.

(** One writing request, with what it draws from its surroundings. *)
Inductive write : Type :=
  | Register (user_data : UserCreate.t) (new_id : string) (created updated : datetime)
      (salt : string) (utcnow : Z)
  | CreateFoodItem (food_data : FoodItemCreate.t) (current_user_id new_id : string)
      (utcnow : datetime)
  | LogMeal (meal_data : MealEntryCreate.t) (current_user_id new_id : string)
      (utcnow : datetime)
  | CreateExercise (exercise_data : ExerciseCreate.t) (current_user_id new_id : string)
      (utcnow : datetime)
  | LogWorkout (workout_data : WorkoutEntryCreate.t) (current_user_id new_id : string)
      (utcnow : datetime)
  | CreateGoal (goal_data : GoalCreate.t) (current_user_id new_id : string)
      (created updated : datetime)
  | Startup (new_id : nat -> string) (utcnow : nat -> datetime).

(** The store a writing request leaves. *)
Definition store_after (w : write) (db : Db.t) : Db.t :=
  match w with
  | Register user_data new_id created updated salt utcnow =>
      snd (register_user JWT_SECRET hmac_sha256 bcrypt_hashpw
             user_data new_id created updated salt utcnow db)
  | CreateFoodItem food_data uid new_id utcnow =>
      snd (create_food_item food_data uid new_id utcnow db)
  | LogMeal meal_data uid new_id utcnow =>
      snd (log_meal meal_data uid new_id utcnow db)
  | CreateExercise exercise_data uid new_id utcnow =>
      snd (create_exercise exercise_data uid new_id utcnow db)
  | LogWorkout workout_data uid new_id utcnow =>
      snd (log_workout workout_data uid new_id utcnow db)
  | CreateGoal goal_data uid new_id created updated =>
      snd (create_goal goal_data uid new_id created updated db)
  | Startup new_id utcnow => create_seed_data new_id utcnow db
  end.

(** The store after a sequence of writing requests. *)
Definition run (ws : list write) (db : Db.t) : Db.t :=
  fold_left (fun d w => store_after w d) ws db.

End Accounts.

(** The [User] model [register_user] builds from a request. *)
Definition new_user (user_data : UserCreate.t) (new_id : string)
    (created updated : datetime) : User.t :=
  User.mk new_id (UserCreate.username user_data) (UserCreate.email user_data)
    (UserCreate.full_name user_data) (UserCreate.age user_data)
    (UserCreate.height user_data) (UserCreate.weight user_data)
    (UserCreate.goal_type user_data) (UserCreate.activity_level user_data)
    created updated.

(** Whether the lookup of [register_user] finds an account. *)
Definition taken (user_data : UserCreate.t) (db : Db.t) : bool :=
  existsb (fun d =>
      String.eqb (User.username (UserDoc.user d)) (UserCreate.username user_data)
      || String.eqb (User.email (UserDoc.user d)) (UserCreate.email user_data))
    (Db.users db).


(** The account a writing request writes an entry for; registration,
    the catalogs and the startup hook write for none. *)
Definition written_for (w : write) : option string :=
  match w with
  | LogMeal _ current_user_id _ _ => Some current_user_id
  | LogWorkout _ current_user_id _ _ => Some current_user_id
  | CreateGoal _ current_user_id _ _ _ => Some current_user_id
  | _ => None
  end.

(** The query of the three dated routes, for a window start. *)
Definition meal_query (account : string) (start : datetime) (e : MealEntry.t) : bool :=
  String.eqb (MealEntry.user_id e) account
  && (start <=? MealEntry.logged_at e)
  && (MealEntry.logged_at e <? start + one_day).

Definition workout_query (account : string) (start : datetime) (e : WorkoutEntry.t)
    : bool :=
  String.eqb (WorkoutEntry.user_id e) account
  && (start <=? WorkoutEntry.completed_at e)
  && (WorkoutEntry.completed_at e <? start + one_day).

(** The window start the dated routes compute from their [date]
    parameter. *)
Definition window_start (date : option date_param) (now : datetime) : result datetime :=
  match date with
  | Some d => if str_truthy d then fromisoformat d else Ok (at_midnight now)
  | None => Ok (at_midnight now)
  end.

Definition usernames (db : Db.t) : list string :=
  map (fun d => User.username (UserDoc.user d)) (Db.users db).

Definition emails (db : Db.t) : list string :=
  map (fun d => User.email (UserDoc.user d)) (Db.users db).

(** A meal entry agrees with a catalog when the first food item under
    its [food_item_id] has the name the entry carries and gives, for the
    entry's quantity, the four values the entry carries. *)
Definition meal_agrees (foods : list FoodItem.t) (e : MealEntry.t) : Prop :=
  exists food,
    find_one (fun f => String.eqb (FoodItem.id f) (MealEntry.food_item_id e)) foods
      = Some food
    /\ MealEntry.food_name e = FoodItem.name food
    /\ MealEntry.calories e
         = scaleNutrition (FoodItem.calories_per_100g food) (MealEntry.quantity e)
    /\ MealEntry.protein e
         = scaleNutrition (FoodItem.protein_per_100g food) (MealEntry.quantity e)
    /\ MealEntry.carbs e
         = scaleNutrition (FoodItem.carbs_per_100g food) (MealEntry.quantity e)
    /\ MealEntry.fat e
         = scaleNutrition (FoodItem.fat_per_100g food) (MealEntry.quantity e).

(** The same for a workout entry and the exercise catalog. *)
Definition workout_agrees (exercises : list Exercise.t) (e : WorkoutEntry.t) : Prop :=
  exists exercise minutes,
    find_one (fun x => String.eqb (Exercise.id x) (WorkoutEntry.exercise_id e)) exercises
      = Some exercise
    /\ WorkoutEntry.exercise_name e = Exercise.name exercise
    /\ Py.int_to_float (WorkoutEntry.duration e) = Ok minutes
    /\ WorkoutEntry.calories_burned e
         = calorieBurn (Exercise.calories_per_minute exercise) minutes.

(** A stand-in for the password hash that, like bcrypt, puts the salt in
    front of the hash and reads it back from there: the salt is the
    first two characters. *)
Definition sample_salt (s : string) : string :=
  match s with
  | String a (String b _) => String a (String b "")
  | _ => ".."
  end.

Definition sample_bcrypt (password salt : string) : string :=
  sample_salt salt ++ password.

(* ================================================================== *)
(** * Facts about Python numbers *)

Lemma lit_100 : Py.lit 100 = 100%float.
Proof. reflexivity. Qed.

Lemma truediv_100 (x : float) : Py.truediv x (Py.lit 100) = Ok (x / 100)%float.
Proof. reflexivity. Qed.

(** A double that compares equal to zero is one of the two zeros. *)
Lemma float_eqb_zero (x : float) :
  (x =? 0)%float = true -> x = 0%float \/ x = (-0)%float.
Proof.
  rewrite FloatAxioms.eqb_spec.
  change (Prim2SF 0%float) with (S754_zero false).
  intros H.
  rewrite <- (SF2Prim_Prim2SF x).
  destruct (Prim2SF x) as [s | s | | s m e]; try discriminate.
  - destruct s; [right | left]; reflexivity.
  - destruct s; discriminate.
  - destruct s; discriminate.
Qed.

(** Rounding to nearest even acts on the magnitude: the sign passes
    through. *)
Lemma SFopp_binary_round_aux (s : bool) (m e : Z) (l : location) :
  SFopp (binary_round_aux prec emax s m e l) = binary_round_aux prec emax (negb s) m e l.
Proof.
  unfold binary_round_aux.
  destruct (shr_fexp prec emax m e l) as [mrs e'].
  destruct (shr_fexp prec emax _ e' loc_Exact) as [mrs' e''].
  destruct (shr_m mrs'); try reflexivity.
  destruct (Z.leb e'' (emax - prec)); reflexivity.
Qed.

Lemma SFdiv_opp_l (x y : spec_float) :
  SFdiv prec emax (SFopp x) y = SFopp (SFdiv prec emax x y).
Proof.
  destruct x as [sx | sx | | sx mx ex], y as [sy | sy | | sy my ey];
    try reflexivity; try (destruct sx, sy; reflexivity).
  unfold SFopp at 1, SFdiv.
  destruct (SFdiv_core_binary prec emax (Z.pos mx) ex (Z.pos my) ey) as [[mz ez] lz].
  rewrite SFopp_binary_round_aux. destruct sx, sy; reflexivity.
Qed.

Lemma SFmul_opp_opp (x : spec_float) :
  SFmul prec emax (SFopp x) (SFopp x) = SFmul prec emax x x.
Proof.
  destruct x as [[] | [] | | [] m e]; reflexivity.
Qed.

Lemma SFeqb_opp_opp (x : spec_float) :
  SFeqb (SFopp x) (SFopp x) = SFeqb x x.
Proof.
  destruct x as [[] | [] | | [] m e]; try reflexivity;
    unfold SFeqb, SFopp, SFcompare, negb;
    rewrite Z.compare_refl, Pos.compare_cont_refl; reflexivity.
Qed.

Lemma float_div_opp_l (x y : float) : (- x / y = - (x / y))%float.
Proof.
  apply Prim2SF_inj.
  rewrite div_spec, !opp_spec, div_spec. apply SFdiv_opp_l.
Qed.

Lemma float_mul_opp_opp (x : float) : (- x * - x = x * x)%float.
Proof.
  apply Prim2SF_inj.
  rewrite !mul_spec, !opp_spec. apply SFmul_opp_opp.
Qed.

Lemma is_finite_opp (x : float) : is_finite (- x) = is_finite x.
Proof.
  unfold is_finite, is_nan, is_infinity.
  rewrite !FloatAxioms.eqb_spec, !abs_spec, !opp_spec, SFeqb_opp_opp.
  destruct (Prim2SF x) as [[] | [] | | [] m e]; reflexivity.
Qed.

(** [round2], case by case on the double: a finite nonzero [x] of
    magnitude [m * 2^e] goes to the double nearest to [n / 100], [n]
    being [centi_mag m e], with the sign of [x]. *)
Lemma round2_cases (x : float) :
  match Prim2SF x with
  | S754_finite s m e =>
      Py.centi_mag m e < 2 ^ 53 ->
      Py.round2 x = if s then (- (Py.lit (Py.centi_mag m e) / 100))%float
                    else (Py.lit (Py.centi_mag m e) / 100)%float
  | _ => Py.round2 x = x
  end.
Proof.
  unfold Py.round2. destruct (Prim2SF x) as [s | s | | s m e]; try reflexivity.
  intros Hn. apply Z.ltb_lt in Hn. rewrite Hn. reflexivity.
Qed.

(** [centi_mag] is a nearest integer to [100 * m * 2^e]: twice the
    distance is at most one unit. *)
Lemma centi_mag_nearest (m : positive) (e : Z) :
  e < 0 ->
  Z.abs (2 * (100 * Z.pos m) - 2 * Py.centi_mag m e * 2 ^ (- e)) <= 2 ^ (- e).
Proof.
  intros He. unfold Py.centi_mag.
  destruct (Z.leb_spec 0 e) as [Hle | _]; [lia |].
  assert (Hden : 0 < 2 ^ (- e)) by (apply Z.pow_pos_nonneg; lia).
  pose proof (Z.div_mod (100 * Z.pos m) (2 ^ (- e)) ltac:(lia)) as Hdm.
  pose proof (Z.mod_pos_bound (100 * Z.pos m) (2 ^ (- e)) Hden) as Hr.
  set (den := 2 ^ (- e)) in *.
  set (q := 100 * Z.pos m / den) in *.
  set (r := (100 * Z.pos m) mod den) in *.
  destruct (Z.compare_spec (2 * r) den) as [Heq | Hlt | Hgt].
  - destruct (Z.even q); nia.
  - nia.
  - nia.
Qed.

(** On an exact multiple of 1/100 no rounding happens. *)
Lemma centi_mag_exact (m : positive) (e n : Z) :
  e < 0 -> 100 * Z.pos m = n * 2 ^ (- e) -> Py.centi_mag m e = n.
Proof.
  intros He Hn. unfold Py.centi_mag.
  destruct (Z.leb_spec 0 e) as [Hle | _]; [lia |].
  assert (Hden : 0 < 2 ^ (- e)) by (apply Z.pow_pos_nonneg; lia).
  rewrite Hn, Z.div_mul, Z.mod_mul by lia.
  destruct (Z.compare_spec (2 * 0) (2 ^ (- e))); lia.
Qed.

(** The dict lookup with default is the specification's table. *)
Lemma activity_multiplier_get (level : string) :
  default 1.2%float (activity_multiplier !! level) = activity_coefficient level.
Proof.
  unfold activity_multiplier, activity_coefficient,
    SEDENTARY, LIGHTLY_ACTIVE, MODERATELY_ACTIVE, VERY_ACTIVE, EXTREMELY_ACTIVE.
  repeat match goal with
  | |- context [String.eqb level ?k] =>
      destruct (String.eqb_spec level k) as [-> | ?];
      [ repeat (rewrite lookup_insert_ne by (intros ?; discriminate));
        rewrite lookup_insert_eq; reflexivity
      | rewrite (lookup_insert_ne _ k level) by congruence ]
  end.
  rewrite lookup_empty. reflexivity.
Qed.

(* ================================================================== *)
(** * Derivation engine *)

(** C1 (as amended).  For an account whose age, weight and height are all
    nonzero, [calculate_daily_calories] is
    [int((10*weight + 6.25*height - 5*age + 5) * m)] with [m] the
    tabulated coefficient of the activity level (1.2 for a level not in
    the table); when one of the three is zero it is exactly 2000.  For
    age 25, weight 70, height 175, moderately active, it is 2594. *)
Theorem daily_calories_formula (user : User.t) :
  (User.age user <> 0 ->
   (User.weight user =? 0)%float = false ->
   (User.height user =? 0)%float = false ->
   calculate_daily_calories user =
     (a <- Py.int_to_float (5 * User.age user) ;;
      Py.float_to_int
        ((10 * User.weight user + 6.25 * User.height user - a + 5)
         * activity_coefficient (User.activity_level user))%float))
  /\ (User.age user = 0
      \/ (User.weight user =? 0)%float = true
      \/ (User.height user =? 0)%float = true ->
      calculate_daily_calories user = Ok 2000)
  /\ calculate_daily_calories example_user = Ok 2594.
Proof.
  split; [| split].
  - intros Ha Hw Hh. unfold calculate_daily_calories, Py.int_truthy, Py.float_truthy.
    apply Z.eqb_neq in Ha. rewrite Ha, Hw, Hh. cbn [negb andb].
    rewrite activity_multiplier_get. reflexivity.
  - intros H. unfold calculate_daily_calories, Py.int_truthy, Py.float_truthy.
    destruct H as [Ha | [Hw | Hh]].
    + rewrite Ha. reflexivity.
    + rewrite Hw. rewrite andb_false_r. reflexivity.
    + rewrite Hh. rewrite andb_false_r. reflexivity.
  - vm_compute. reflexivity.
Qed.

(** The worked example instantiates the nonzero branch. *)
Lemma daily_calories_formula_witness :
  (User.age example_user <> 0
   /\ (User.weight example_user =? 0)%float = false
   /\ (User.height example_user =? 0)%float = false)
  /\ calculate_daily_calories example_user =
       (a <- Py.int_to_float (5 * 25) ;;
        Py.float_to_int ((10 * 70 + 6.25 * 175 - a + 5) * 1.55)%float).
Proof.
  split; [split; [cbn; lia | split; reflexivity] |].
  apply (proj1 (daily_calories_formula example_user)); cbn; [lia | reflexivity | reflexivity].
Defined.

(** The example of C1 as the specification words it: the code returns
    2594 there, not 2607. *)
Lemma daily_calories_example_is_not_2607 :
  calculate_daily_calories example_user = Ok 2594
  /\ calculate_daily_calories example_user <> Ok 2607.
Proof.
  assert (H : calculate_daily_calories example_user = Ok 2594)
    by (vm_compute; reflexivity).
  split; [exact H | rewrite H; discriminate].
Qed.

(** C6 (as amended).  For every weight, [calculate_bmi] raises, and so
    returns no result, when the height is zero; a negative height is
    not rejected but taken for its opposite:
    [bmi(weight, -height) = bmi(weight, height)]. *)
Theorem bmi_rejects_zero_height (weight height : float) :
  ((height =? 0)%float = true ->
   calculate_bmi weight height = Raise ZeroDivisionError)
  /\ calculate_bmi weight (- height) = calculate_bmi weight height.
Proof.
  split.
  - intros H. destruct (float_eqb_zero height H) as [-> | ->]; reflexivity.
  - unfold calculate_bmi. rewrite !truediv_100. cbn [bind].
    rewrite float_div_opp_l. unfold Py.pow2.
    rewrite float_mul_opp_opp, is_finite_opp. reflexivity.
Qed.

Lemma bmi_rejects_zero_height_witness :
  (0 =? 0)%float = true /\ calculate_bmi 70 0 = Raise ZeroDivisionError.
Proof.
  split; [reflexivity |].
  apply (proj1 (bmi_rejects_zero_height 70 0)). reflexivity.
Defined.

(** A negative height is not rejected: the code squares it. *)
Lemma bmi_accepts_negative_height :
  (-175 <=? 0)%float = true /\ calculate_bmi 70 (-175) = Ok 22.86%float.
Proof.
  split; vm_compute; reflexivity.
Qed.




(* ================================================================== *)
(** * Credential manager *)

Section Tokens.

Variable JWT_SECRET : string.
Variable hmac_sha256 : string -> string -> Jwt.claims -> string.

(** A token with the expected algorithm and a matching signature passes
    the first two checks, whatever its payload. *)
Lemma decode_genuine (payload : Jwt.claims) (now : Z) :
  jwt_decode hmac_sha256 (Jwt.Compact JWT_ALGORITHM payload
            (hmac_sha256 JWT_SECRET JWT_ALGORITHM payload))
         JWT_SECRET [JWT_ALGORITHM] now =
    match Jwt.exp payload with
    | Some e => if e <=? now then Raise ExpiredSignatureError else Ok payload
    | None => Ok payload
    end.
Proof.
  unfold jwt_decode. cbn [existsb].
  rewrite (String.eqb_refl JWT_ALGORITHM). cbn [orb negb].
  rewrite String.eqb_refl. reflexivity.
Qed.

(** The decoder rejects a token whose algorithm or signature is off
    before it looks at the payload. *)
Lemma decode_forged (alg : string) (payload : Jwt.claims) (signature : string) (now : Z) :
  alg <> JWT_ALGORITHM \/ signature <> hmac_sha256 JWT_SECRET alg payload ->
  jwt_decode hmac_sha256 (Jwt.Compact alg payload signature) JWT_SECRET [JWT_ALGORITHM] now
    = Raise InvalidAlgorithmError
  \/ jwt_decode hmac_sha256 (Jwt.Compact alg payload signature) JWT_SECRET [JWT_ALGORITHM] now
    = Raise InvalidSignatureError.
Proof.
  intros H. unfold jwt_decode. cbn [existsb]. rewrite orb_false_r.
  destruct (String.eqb_spec alg JWT_ALGORITHM) as [-> | Halg]; cbn [negb].
  - destruct H as [H | H]; [congruence |].
    destruct (String.eqb_spec signature (hmac_sha256 JWT_SECRET JWT_ALGORITHM payload));
      [congruence | right; reflexivity].
  - left; reflexivity.
Qed.


(** C3.  Verification fails closed.  A token that is not three
    well-formed segments, or whose algorithm or signature check fails,
    is refused with 401 "Invalid token"; a genuine token whose expiry
    has passed, in particular an issued token once the clock is past
    issuance plus 24 hours, is refused with 401 "Token expired"; in
    neither case is an account id returned. *)
Theorem verify_fails_closed (token : Jwt.token) (now : Z) :
  ((exists raw, token = Jwt.Malformed raw)
   \/ (exists alg payload signature,
         token = Jwt.Compact alg payload signature
         /\ (alg <> JWT_ALGORITHM \/ signature <> hmac_sha256 JWT_SECRET alg payload)) ->
   verify_jwt_token JWT_SECRET hmac_sha256 token now
     = Raise (HTTPException 401 "Invalid token"))
  /\ (forall payload e,
        token = Jwt.Compact JWT_ALGORITHM payload
                  (hmac_sha256 JWT_SECRET JWT_ALGORITHM payload) ->
        Jwt.exp payload = Some e ->
        e < now ->
        verify_jwt_token JWT_SECRET hmac_sha256 token now
          = Raise (HTTPException 401 "Token expired"))
  /\ (forall account_id issued,
        token = create_jwt_token JWT_SECRET hmac_sha256 account_id issued ->
        issued + 24 * 3600 < now ->
        verify_jwt_token JWT_SECRET hmac_sha256 token now
          = Raise (HTTPException 401 "Token expired")
        /\ forall other, verify_jwt_token JWT_SECRET hmac_sha256 token now <> Ok other).
Proof.
  assert (Hexp : forall payload e,
            token = Jwt.Compact JWT_ALGORITHM payload
                      (hmac_sha256 JWT_SECRET JWT_ALGORITHM payload) ->
            Jwt.exp payload = Some e -> e < now ->
            verify_jwt_token JWT_SECRET hmac_sha256 token now
          = Raise (HTTPException 401 "Token expired")).
  { intros payload e -> He Hlt. unfold verify_jwt_token.
    rewrite decode_genuine, He.
    destruct (Z.leb_spec e now) as [_ | Hgt]; [reflexivity | lia]. }
  split; [| split].
  - intros [[raw ->] | (alg & payload & signature & -> & Hbad)].
    + reflexivity.
    + unfold verify_jwt_token.
      destruct (decode_forged alg payload signature now Hbad) as [-> | ->]; reflexivity.
  - exact Hexp.
  - intros account_id issued Htok Hlate.
    assert (Hv : verify_jwt_token JWT_SECRET hmac_sha256 token now
          = Raise (HTTPException 401 "Token expired")).
    { apply (Hexp (Jwt.mk_claims (Some account_id) (Some (issued + 24 * 3600)))
                  (issued + 24 * 3600)); [exact Htok | reflexivity | lia]. }
    split; [exact Hv | intros other; rewrite Hv; discriminate].
Qed.

End Tokens.


Lemma verify_fails_closed_witness :
  verify_jwt_token "secret" sample_hmac
    (Jwt.Compact "HS256" (Jwt.mk_claims (Some "account-2") (Some 5000)) "secret.HS256.account-1")
    1000
  = Raise (HTTPException 401 "Invalid token")
  /\ verify_jwt_token "secret" sample_hmac
       (create_jwt_token "secret" sample_hmac "account-1" 1000) (1000 + 24 * 3600 + 1)
     = Raise (HTTPException 401 "Token expired").
Proof.
  split.
  - apply (proj1 (verify_fails_closed "secret" sample_hmac _ 1000)).
    right. eexists _, _, _. split; [reflexivity |].
    right. vm_compute. discriminate.
  - eapply (proj2 (proj2 (verify_fails_closed "secret" sample_hmac _ _))).
    + reflexivity.
    + lia.
Defined.

(* ================================================================== *)
(** * Registration *)

Section Registration.

Variable JWT_SECRET : string.
Variable hmac_sha256 : string -> string -> Jwt.claims -> string.
Variable bcrypt_hashpw : string -> string -> string.

(** A stored account with the requested username or email makes the
    request fail, and leaves the store as it was. *)
Lemma register_conflict_of_existing (user_data : UserCreate.t) (new_id : string)
    (created updated : datetime) (salt : string) (utcnow : Z) (db : Db.t)
    (d : UserDoc.t) :
  In d (Db.users db) ->
  User.username (UserDoc.user d) = UserCreate.username user_data
  \/ User.email (UserDoc.user d) = UserCreate.email user_data ->
  register_user JWT_SECRET hmac_sha256 bcrypt_hashpw
    user_data new_id created updated salt utcnow db = (Raise conflict, db).
Proof.
  intros Hin Hsame. unfold register_user, find_one.
  destruct (find _ (Db.users db)) as [found |] eqn:Hfind; [reflexivity |].
  pose proof (find_none _ _ Hfind d Hin) as Hd. cbn beta in Hd.
  apply orb_false_elim in Hd as [Hu He].
  destruct Hsame as [Hs | Hs]; rewrite Hs, String.eqb_refl in *; discriminate.
Qed.

(** A registration that does not end in a conflict stores the account
    under the requested username and email. *)
Lemma register_stores_account (user_data : UserCreate.t) (new_id : string)
    (created updated : datetime) (salt : string) (utcnow : Z) (db db' : Db.t)
    (r : result (Jwt.token * UserProfile.t)) :
  register_user JWT_SECRET hmac_sha256 bcrypt_hashpw
    user_data new_id created updated salt utcnow db = (r, db') ->
  r <> Raise conflict ->
  exists d, In d (Db.users db')
    /\ User.username (UserDoc.user d) = UserCreate.username user_data
    /\ User.email (UserDoc.user d) = UserCreate.email user_data.
Proof.
  unfold register_user. destruct (find_one _ (Db.users db)) as [found |].
  - intros [= <- <-] Hr. contradiction Hr. reflexivity.
  - intros [= <- <-] _. eexists. split.
    + cbn. apply in_or_app. right. left. reflexivity.
    + split; reflexivity.
Qed.

(** C8.  After an account has been registered, a second registration
    with the same username or the same email fails with 400, whatever
    its other fields, and creates no account: the store is unchanged. *)
Theorem duplicate_registration_conflicts
    (first second : UserCreate.t) (id1 id2 : string)
    (created1 updated1 created2 updated2 : datetime) (salt1 salt2 : string)
    (utcnow1 utcnow2 : Z) (db db1 : Db.t) (reply : Jwt.token * UserProfile.t) :
  register_user JWT_SECRET hmac_sha256 bcrypt_hashpw
    first id1 created1 updated1 salt1 utcnow1 db = (Ok reply, db1) ->
  UserCreate.username second = UserCreate.username first
  \/ UserCreate.email second = UserCreate.email first ->
  register_user JWT_SECRET hmac_sha256 bcrypt_hashpw
    second id2 created2 updated2 salt2 utcnow2 db1
    = (Raise (HTTPException 400 "Username or email already exists"), db1).
Proof.
  intros Hfirst Hsame.
  destruct (register_stores_account _ _ _ _ _ _ _ _ _ Hfirst ltac:(discriminate))
    as (d & Hin & Hu & He).
  apply (register_conflict_of_existing second id2 created2 updated2 salt2 utcnow2 db1 d Hin).
  destruct Hsame as [Hs | Hs]; [left | right]; congruence.
Qed.

End Registration.

Lemma duplicate_registration_conflicts_witness :
  let db1 := snd (register_user "secret" sample_hmac sample_hashpw
                    sam "id-1" 10 11 "salt-1" 1000 Db.empty) in
  is_ok (fst (register_user "secret" sample_hmac sample_hashpw
                sam "id-1" 10 11 "salt-1" 1000 Db.empty)) = true
  /\ UserCreate.username sam_again = UserCreate.username sam
  /\ register_user "secret" sample_hmac sample_hashpw
       sam_again "id-2" 20 21 "salt-2" 2000 db1
     = (Raise (HTTPException 400 "Username or email already exists"), db1).
Proof.
  cbv zeta. split; [vm_compute; reflexivity |]. split; [reflexivity |].
  eapply (duplicate_registration_conflicts "secret" sample_hmac sample_hashpw
            sam sam_again "id-1" "id-2" 10 11 20 21 "salt-1" "salt-2" 1000 2000 Db.empty).
  - vm_compute. reflexivity.
  - left. reflexivity.
Defined.

(* ================================================================== *)
(** * Logging *)

(** What [log_meal] does, case by case on the catalog lookup. *)
Lemma log_meal_cases (meal_data : MealEntryCreate.t) (current_user_id new_id : string)
    (utcnow : datetime) (db : Db.t) :
  match find_one
          (fun f => String.eqb (FoodItem.id f) (MealEntryCreate.food_item_id meal_data))
          (Db.food_items db) with
  | None =>
      log_meal meal_data current_user_id new_id utcnow db
        = (Raise (HTTPException 404 "Food item not found"), db)
  | Some food =>
      let q := MealEntryCreate.quantity meal_data in
      let entry :=
        MealEntry.mk new_id current_user_id (MealEntryCreate.food_item_id meal_data)
          (FoodItem.name food) q
          (scaleNutrition (FoodItem.calories_per_100g food) q)
          (scaleNutrition (FoodItem.protein_per_100g food) q)
          (scaleNutrition (FoodItem.carbs_per_100g food) q)
          (scaleNutrition (FoodItem.fat_per_100g food) q)
          (MealEntryCreate.meal_type meal_data) utcnow in
      log_meal meal_data current_user_id new_id utcnow db
        = (Ok entry, Db.insert_meal_entry entry db)
  end.
Proof.
  unfold log_meal.
  destruct (find_one _ (Db.food_items db)) as [food |]; [| reflexivity].
  rewrite truediv_100. reflexivity.
Qed.

(** What [log_workout] does, case by case on the catalog lookup and on
    the conversion of the duration. *)
Lemma log_workout_cases (workout_data : WorkoutEntryCreate.t)
    (current_user_id new_id : string) (utcnow : datetime) (db : Db.t) :
  match find_one
          (fun x => String.eqb (Exercise.id x) (WorkoutEntryCreate.exercise_id workout_data))
          (Db.exercises db) with
  | None =>
      log_workout workout_data current_user_id new_id utcnow db
        = (Raise (HTTPException 404 "Exercise not found"), db)
  | Some exercise =>
      match Py.int_to_float (WorkoutEntryCreate.duration workout_data) with
      | Raise e => log_workout workout_data current_user_id new_id utcnow db = (Raise e, db)
      | Ok minutes =>
          let entry :=
            WorkoutEntry.mk new_id current_user_id
              (WorkoutEntryCreate.exercise_id workout_data) (Exercise.name exercise)
              (WorkoutEntryCreate.duration workout_data)
              (calorieBurn (Exercise.calories_per_minute exercise) minutes)
              (WorkoutEntryCreate.sets workout_data) (WorkoutEntryCreate.reps workout_data)
              (WorkoutEntryCreate.weight workout_data) (WorkoutEntryCreate.notes workout_data)
              utcnow in
          log_workout workout_data current_user_id new_id utcnow db
            = (Ok entry, Db.insert_workout_entry entry db)
      end
  end.
Proof.
  unfold log_workout.
  destruct (find_one _ (Db.exercises db)) as [exercise |]; [| reflexivity].
  destruct (Py.int_to_float _); reflexivity.
Qed.


(** The stored amount is the requested one: no check stands between. *)
Lemma log_meal_quantity (meal_data : MealEntryCreate.t) (current_user_id new_id : string)
    (utcnow : datetime) (db db' : Db.t) (entry : MealEntry.t) :
  log_meal meal_data current_user_id new_id utcnow db = (Ok entry, db') ->
  MealEntry.quantity entry = MealEntryCreate.quantity meal_data
  /\ Db.meal_entries db' = (Db.meal_entries db ++ [entry])%list.
Proof.
  intros H.
  pose proof (log_meal_cases meal_data current_user_id new_id utcnow db) as Hc.
  destruct (find_one _ (Db.food_items db)) as [food |].
  - cbv zeta in Hc. rewrite Hc in H. injection H as <- <-. split; reflexivity.
  - rewrite Hc in H. discriminate.
Qed.

Lemma log_workout_duration (workout_data : WorkoutEntryCreate.t)
    (current_user_id new_id : string) (utcnow : datetime) (db db' : Db.t)
    (entry : WorkoutEntry.t) :
  log_workout workout_data current_user_id new_id utcnow db = (Ok entry, db') ->
  WorkoutEntry.duration entry = WorkoutEntryCreate.duration workout_data
  /\ Db.workout_entries db' = (Db.workout_entries db ++ [entry])%list.
Proof.
  intros H.
  pose proof (log_workout_cases workout_data current_user_id new_id utcnow db) as Hc.
  destruct (find_one _ (Db.exercises db)) as [exercise |].
  - destruct (Py.int_to_float _) as [minutes | e].
    + cbv zeta in Hc. rewrite Hc in H. injection H as <- <-. split; reflexivity.
    + rewrite Hc in H. discriminate.
  - rewrite Hc in H. discriminate.
Qed.

(** C9 (as amended).  A log operation stores the quantity, or the
    duration, exactly as requested, appended to the log: the stored
    amount is positive exactly when the requested one was. *)
Theorem log_stores_requested_amount :
  (forall meal_data current_user_id new_id utcnow db entry db',
     log_meal meal_data current_user_id new_id utcnow db = (Ok entry, db') ->
     MealEntry.quantity entry = MealEntryCreate.quantity meal_data
     /\ (0 <? MealEntry.quantity entry)%float
          = (0 <? MealEntryCreate.quantity meal_data)%float
     /\ Db.meal_entries db' = (Db.meal_entries db ++ [entry])%list)
  /\ (forall workout_data current_user_id new_id utcnow db entry db',
        log_workout workout_data current_user_id new_id utcnow db = (Ok entry, db') ->
        WorkoutEntry.duration entry = WorkoutEntryCreate.duration workout_data
        /\ (0 < WorkoutEntry.duration entry <-> 0 < WorkoutEntryCreate.duration workout_data)
        /\ Db.workout_entries db' = (Db.workout_entries db ++ [entry])%list).
Proof.
  split.
  - intros meal_data uid new_id utcnow db entry db' H.
    destruct (log_meal_quantity _ _ _ _ _ _ _ H) as [Hq Hdb].
    rewrite Hq. split; [reflexivity | split; [reflexivity | exact Hdb]].
  - intros workout_data uid new_id utcnow db entry db' H.
    destruct (log_workout_duration _ _ _ _ _ _ _ H) as [Hd Hdb].
    rewrite Hd. split; [reflexivity | split; [tauto | exact Hdb]].
Qed.

(** Logging -5 g of a catalog food, and a workout of -30 minutes, both
    succeed and store the non-positive amount. *)
Lemma log_stores_nonpositive_amounts :
  (is_ok (fst (log_meal (MealEntryCreate.mk "food-1" (-5) "lunch")
                 "account-1" "meal-1" 0 seeded_db)) = true
   /\ (MealEntry.quantity <$>
         Db.meal_entries (snd (log_meal (MealEntryCreate.mk "food-1" (-5) "lunch")
                                 "account-1" "meal-1" 0 seeded_db))) = [(-5)%float]
   /\ (-5 <=? 0)%float = true)
  /\ (is_ok (fst (log_workout (WorkoutEntryCreate.mk "ex-1" (-30) None None None None)
                    "account-1" "workout-1" 0 seeded_db)) = true
      /\ (WorkoutEntry.duration <$>
            Db.workout_entries (snd (log_workout
                                       (WorkoutEntryCreate.mk "ex-1" (-30) None None None None)
                                       "account-1" "workout-1" 0 seeded_db))) = [-30]
      /\ -30 <= 0).
Proof.
  repeat split; try (vm_compute; reflexivity). lia.
Qed.

(* ================================================================== *)
(** * Day windows and list retrieval *)

Lemma at_midnight_is_day_start (now : datetime) :
  at_midnight now = fst (dayWindow None now).
Proof.
  unfold at_midnight, dayWindow. cbn [fst].
  pose proof (Z.div_mod now us_per_day ltac:(discriminate)). lia.
Qed.

(** The start a handler computes from its [date] parameter, for an
    absent parameter or a calendar date. *)
Lemma handler_day_start (date : option Z) (now : datetime) :
  match DateOnly <$> date with
  | Some d => if str_truthy d then fromisoformat d else Ok (at_midnight now)
  | None => Ok (at_midnight now)
  end = Ok (fst (dayWindow date now)).
Proof.
  destruct date as [day |]; cbn.
  - reflexivity.
  - rewrite at_midnight_is_day_start. reflexivity.
Qed.

(** The query each handler sends is the window query. *)
Lemma window_query {A} (owner : A -> string) (stamp : A -> datetime)
    (account : string) (date : option Z) (now : datetime) (coll : list A) :
  List.filter
    (fun e => String.eqb (owner e) account
              && (fst (dayWindow date now) <=? stamp e)
              && (stamp e <? fst (dayWindow date now) + one_day))
    coll
  = List.filter (owned_in_window owner stamp account (dayWindow date now)) coll.
Proof.
  apply List.filter_ext. intros e. unfold owned_in_window, in_window.
  rewrite andb_assoc. reflexivity.
Qed.





Section Aggregation.

Variable mongo_sum : list float -> float.
Variable py_sum : list float -> float.

Lemma nutrition_summary_window (date : option Z) (account : string) (now : datetime)
    (db : Db.t) :
  get_daily_nutrition_summary mongo_sum (DateOnly <$> date) account now db
  = Ok (aggregateNutrition mongo_sum
          (List.filter
             (owned_in_window MealEntry.user_id MealEntry.logged_at account
                (dayWindow date now))
             (Db.meal_entries db))).
Proof.
  unfold get_daily_nutrition_summary. rewrite handler_day_start. cbn [bind].
  rewrite window_query. unfold aggregateNutrition.
  destruct (List.filter _ (Db.meal_entries db)); reflexivity.
Qed.

Lemma dashboard_windows (account : string) (now now' : datetime) (db : Db.t) :
  get_dashboard_stats mongo_sum py_sum account now now' db
  = Ok (Dashboard.mk
          (aggregateNutrition mongo_sum
             (List.filter
                (owned_in_window MealEntry.user_id MealEntry.logged_at account
                   (dayWindow None now'))
                (Db.meal_entries db)))
          (aggregateWorkouts py_sum
             (firstn 1000
                (List.filter
                   (owned_in_window WorkoutEntry.user_id WorkoutEntry.completed_at account
                      (dayWindow None now))
                   (Db.workout_entries db))))
          (Z.of_nat (length
             (firstn 1000
                (List.filter
                   (fun g => String.eqb (Goal.user_id g) account
                             && Bool.eqb (Goal.is_achieved g) false)
                   (Db.goals db)))))).
Proof.
  unfold get_dashboard_stats.
  pose proof (nutrition_summary_window None account now' db) as Hs.
  change (DateOnly <$> None) with (@None date_param) in Hs.
  rewrite Hs. cbn [bind].
  unfold find_to_list, to_list.
  rewrite at_midnight_is_day_start.
  rewrite (window_query WorkoutEntry.user_id WorkoutEntry.completed_at account None now).
  reflexivity.
Qed.


End Aggregation.

Lemma filter_all {A} (l : list A) : List.filter (fun _ => true) l = l.
Proof.
  induction l as [| a l IH]; cbn; [reflexivity | rewrite IH; reflexivity].
Qed.



(* ================================================================== *)
(** * Worked examples *)

(** A summary over no entries is all zeros, not an error. *)
Example summary_of_empty_log :
  get_daily_nutrition_summary sample_sum None "account-1" 0 seeded_db
  = Ok (NutritionSummary.mk 0 0 0 0 0).
Proof. reflexivity. Qed.

(** Of three meals at the start of a day, just before its end and at its
    end, the log and the summary of that day take the first two. *)
Example boundary_meals :
  fmap (M := option) (fmap (M := list) MealEntry.id)
    (ok_value (get_meal_log (Some (DateOnly sample_day)) "account-1" 0 boundary_db))
  = Some ["meal-1"; "meal-2"]
  /\ NutritionSummary.meal_count <$>
       ok_value (get_daily_nutrition_summary sample_sum (Some (DateOnly sample_day))
                   "account-1" 0 boundary_db)
     = Some 2.
Proof. split; vm_compute; reflexivity. Qed.

(** Logging 100 g of a food of 165 kcal per 100 g, then asking for the
    summary of that day: one meal, 165 kcal. *)
Example log_then_summary :
  let db' := snd (log_meal (MealEntryCreate.mk "food-1" 100 "lunch")
                    "account-1" "meal-1" (sample_day_start + 5) seeded_db) in
  get_daily_nutrition_summary sample_sum None "account-1" (sample_day_start + 9) db'
  = Ok (NutritionSummary.mk 165 31 0 3.6 1).
Proof. vm_compute. reflexivity. Qed.

(* ================================================================== *)
(** * Accounts: what verification accepts, login and the profile *)

Lemma find_app_some {A} (q : A -> bool) (l l' : list A) (x : A) :
  find q l = Some x -> find q (l ++ l') = Some x.
Proof.
  induction l as [| a l IH]; cbn; [discriminate |].
  destruct (q a); [trivial | exact IH].
Qed.

Lemma find_app_none {A} (q : A -> bool) (l l' : list A) :
  find q l = None -> find q (l ++ l') = find q l'.
Proof.
  induction l as [| a l IH]; cbn; [reflexivity |].
  destruct (q a); [discriminate | exact IH].
Qed.

(** The sample password hash reads its salt back from a hash. *)
Lemma sample_bcrypt_carries_salt (password salt : string) :
  sample_bcrypt password (sample_bcrypt password salt) = sample_bcrypt password salt.
Proof.
  unfold sample_bcrypt. f_equal. unfold sample_salt.
  destruct salt as [| a [| b salt]]; reflexivity.
Qed.

Section AccountFacts.

Variable JWT_SECRET : string.
Variable hmac_sha256 : string -> string -> Jwt.claims -> string.
Variable bcrypt_hashpw : string -> string -> string.

(** X1.  Whatever [verify_jwt_token] accepts carries the expected
    algorithm and a signature made with the secret over its own payload,
    names the returned account in that payload, and has not reached its
    expiry. *)
Theorem verify_accepts_only_genuine (token : Jwt.token) (now : Z) (account_id : string) :
  verify_jwt_token JWT_SECRET hmac_sha256 token now = Ok account_id ->
  exists payload,
    token = Jwt.Compact JWT_ALGORITHM payload
              (hmac_sha256 JWT_SECRET JWT_ALGORITHM payload)
    /\ Jwt.user_id payload = Some account_id
    /\ (forall e, Jwt.exp payload = Some e -> now < e).
Proof.
  unfold verify_jwt_token, jwt_decode.
  destruct token as [alg payload signature | raw]; [| discriminate].
  cbn [existsb]. rewrite orb_false_r.
  destruct (String.eqb_spec alg JWT_ALGORITHM) as [-> | _]; [| discriminate].
  cbn [negb].
  destruct (String.eqb_spec signature (hmac_sha256 JWT_SECRET JWT_ALGORITHM payload))
    as [-> | _]; [| discriminate].
  cbn [negb]. intros H. exists payload. split; [reflexivity |].
  destruct (Jwt.exp payload) as [e |] eqn:He.
  - destruct (Z.leb_spec e now) as [_ | Hlt]; [discriminate |].
    destruct (Jwt.user_id payload); [| discriminate].
    injection H as <-. split; [reflexivity |]. intros e' [= <-]. exact Hlt.
  - destruct (Jwt.user_id payload); [| discriminate].
    injection H as <-. split; [reflexivity | discriminate].
Qed.


End AccountFacts.

Lemma verify_accepts_only_genuine_witness :
  verify_jwt_token "secret" sample_hmac
    (create_jwt_token "secret" sample_hmac "account-1" 1000) 1000 = Ok "account-1"
  /\ exists payload,
       create_jwt_token "secret" sample_hmac "account-1" 1000
       = Jwt.Compact JWT_ALGORITHM payload (sample_hmac "secret" JWT_ALGORITHM payload)
       /\ Jwt.user_id payload = Some "account-1"
       /\ (forall e, Jwt.exp payload = Some e -> 1000 < e).
Proof.
  split; [reflexivity |].
  apply (verify_accepts_only_genuine "secret" sample_hmac _ 1000 "account-1").
  reflexivity.
Defined.


Lemma find_existsb {A} (q : A -> bool) (l : list A) :
  existsb q l = match find q l with Some _ => true | None => false end.
Proof.
  induction l as [| a l IH]; cbn; [reflexivity |].
  destruct (q a); [reflexivity | exact IH].
Qed.




Section Sessions.

Variable JWT_SECRET : string.
Variable hmac_sha256 : string -> string -> Jwt.claims -> string.
Variable bcrypt_hashpw : string -> string -> string.

(** [register_user], case by case on its lookup. *)
Lemma register_user_cases (user_data : UserCreate.t) (new_id : string)
    (created updated : datetime) (salt : string) (utcnow : Z) (db : Db.t) :
  register_user JWT_SECRET hmac_sha256 bcrypt_hashpw
    user_data new_id created updated salt utcnow db
  = if taken user_data db then (Raise conflict, db)
    else
      let user := new_user user_data new_id created updated in
      (profile <- profile_of user ;;
       Ok (create_jwt_token JWT_SECRET hmac_sha256 new_id utcnow, profile),
       Db.insert_user
         (UserDoc.mk user (bcrypt_hashpw (UserCreate.password user_data) salt)) db).
Proof.
  unfold register_user, taken, find_one. rewrite find_existsb.
  destruct (find _ (Db.users db)); [reflexivity |].
  cbv zeta. unfold profile_of, hash_password, new_user. cbn [User.weight User.height User.id].
  destruct (calculate_bmi _ _); cbn [bind]; [| reflexivity].
  destruct (calculate_daily_calories _); reflexivity.
Qed.


(** The salt travels in the hash: hashing a password under the hash it
    once gave gives that hash again. *)
Hypothesis hash_carries_salt :
  forall password salt,
    bcrypt_hashpw password (bcrypt_hashpw password salt) = bcrypt_hashpw password salt.

(** X4.  After a registration that succeeded, logging in with the
    registered username and password succeeds, whatever accounts were
    registered since, and replies with the profile the registration
    replied with and a token for the same account. *)
Theorem login_after_register (user_data : UserCreate.t) (new_id : string)
    (created updated : datetime) (salt : string) (utcnow later : Z)
    (db db1 db2 : Db.t) (token : Jwt.token) (profile : UserProfile.t)
    (since : list UserDoc.t) :
  register_user JWT_SECRET hmac_sha256 bcrypt_hashpw
    user_data new_id created updated salt utcnow db = (Ok (token, profile), db1) ->
  Db.users db2 = (Db.users db1 ++ since)%list ->
  login_user JWT_SECRET hmac_sha256 bcrypt_hashpw
    (UserLogin.mk (UserCreate.username user_data) (UserCreate.password user_data))
    later db2
  = Ok (create_jwt_token JWT_SECRET hmac_sha256 new_id later, profile).
Proof.
  rewrite register_user_cases. unfold taken. rewrite find_existsb.
  destruct (find _ (Db.users db)) as [d |] eqn:Hfind; [discriminate |].
  cbv zeta.
  destruct (profile_of (new_user user_data new_id created updated)) as [p | e] eqn:Hp;
    cbn [bind]; [| discriminate].
  intros [= <- <- <-] Husers.
  unfold login_user, find_one. rewrite Husers. cbn [Db.users Db.insert_user].
  cbn [UserLogin.username UserLogin.password].
  assert (Hnone : find (fun d => String.eqb (User.username (UserDoc.user d))
                                   (UserCreate.username user_data)) (Db.users db) = None).
  { destruct (find (fun d => String.eqb _ (UserCreate.username user_data)) (Db.users db))
      as [d |] eqn:Hd; [| reflexivity].
    apply find_some in Hd as [Hin Hname].
    pose proof (find_none _ _ Hfind d Hin) as Hn. cbn beta in Hn.
    rewrite Hname in Hn. discriminate. }
  rewrite <- app_assoc, find_app_none by exact Hnone.
  cbn [app find UserDoc.user new_user User.username]. rewrite String.eqb_refl.
  cbn [UserDoc.password_hash]. unfold verify_password.
  rewrite hash_carries_salt, String.eqb_refl. cbn [negb].
  cbn [UserDoc.user]. fold (new_user user_data new_id created updated).
  rewrite Hp. reflexivity.
Qed.

End Sessions.

Lemma login_after_register_witness :
  let db1 := snd (register_user "secret" sample_hmac sample_bcrypt
                    sam "id-1" 10 11 "salt-1" 1000 Db.empty) in
  is_ok (fst (register_user "secret" sample_hmac sample_bcrypt
                sam "id-1" 10 11 "salt-1" 1000 Db.empty)) = true
  /\ fst <$> ok_value (login_user "secret" sample_hmac sample_bcrypt
                         (UserLogin.mk "sam" "pw-1") 5000 db1)
     = Some (create_jwt_token "secret" sample_hmac "id-1" 5000).
Proof.
  cbv zeta. split; [vm_compute; reflexivity |].
  erewrite (login_after_register "secret" sample_hmac sample_bcrypt
              sample_bcrypt_carries_salt sam "id-1" 10 11 "salt-1" 1000 5000 Db.empty
              _ _ _ _ []).
  - reflexivity.
  - vm_compute. reflexivity.
  - rewrite app_nil_r. reflexivity.
Defined.



Section Profiles.

Variable JWT_SECRET : string.
Variable hmac_sha256 : string -> string -> Jwt.claims -> string.
Variable bcrypt_hashpw : string -> string -> string.


Hypothesis hash_carries_salt :
  forall password salt,
    bcrypt_hashpw password (bcrypt_hashpw password salt) = bcrypt_hashpw password salt.


End Profiles.



(* ================================================================== *)
(** * What the writing requests keep *)

Lemma insert_food_items (l : list FoodItem.t) (db : Db.t) :
  fold_left (fun d food => insert_food_item food d) l db
  = Db.mk (Db.users db) (Db.food_items db ++ l) (Db.meal_entries db)
      (Db.exercises db) (Db.workout_entries db) (Db.goals db).
Proof.
  revert db. induction l as [| f l IH]; intros db; cbn [fold_left].
  - rewrite app_nil_r. destruct db; reflexivity.
  - rewrite IH. unfold insert_food_item. cbn. rewrite <- app_assoc. reflexivity.
Qed.

Lemma insert_exercises (l : list Exercise.t) (db : Db.t) :
  fold_left (fun d exercise => insert_exercise exercise d) l db
  = Db.mk (Db.users db) (Db.food_items db) (Db.meal_entries db)
      (Db.exercises db ++ l) (Db.workout_entries db) (Db.goals db).
Proof.
  revert db. induction l as [| x l IH]; intros db; cbn [fold_left].
  - rewrite app_nil_r. destruct db; reflexivity.
  - rewrite IH. unfold insert_exercise. cbn. rewrite <- app_assoc. reflexivity.
Qed.

(** [create_seed_data], collection by collection. *)
Lemma create_seed_data_cases (new_id : nat -> string) (utcnow : nat -> datetime)
    (db : Db.t) :
  create_seed_data new_id utcnow db
  = Db.mk (Db.users db)
      (Db.food_items db
       ++ match Db.food_items db with [] => sample_foods new_id utcnow | _ => [] end)
      (Db.meal_entries db)
      (Db.exercises db
       ++ match Db.exercises db with [] => sample_exercises new_id utcnow | _ => [] end)
      (Db.workout_entries db) (Db.goals db).
Proof.
  unfold create_seed_data. cbv zeta.
  destruct db as [us fs ms xs ws gs]. cbn [Db.food_items Db.exercises].
  destruct fs as [| f fs], xs as [| x xs]; cbn [length Nat.eqb];
    rewrite ?insert_food_items, ?insert_exercises; cbn [Db.exercises length Nat.eqb];
    rewrite ?insert_exercises; cbn; rewrite ?app_nil_r; reflexivity.
Qed.

Lemma run_invariant (JWT_SECRET : string)
    (hmac_sha256 : string -> string -> Jwt.claims -> string)
    (bcrypt_hashpw : string -> string -> string) (P : Db.t -> Prop) :
  (forall w db, P db -> P (store_after JWT_SECRET hmac_sha256 bcrypt_hashpw w db)) ->
  forall ws db, P db -> P (run JWT_SECRET hmac_sha256 bcrypt_hashpw ws db).
Proof.
  intros Hstep ws. unfold run.
  induction ws as [| w ws IH]; intros db Hdb; cbn [fold_left]; [exact Hdb |].
  apply IH, Hstep, Hdb.
Qed.

Lemma NoDup_snoc {A} (l : list A) (x : A) :
  List.NoDup l -> ~ In x l -> List.NoDup (l ++ [x]).
Proof.
  induction l as [| a l IH]; intros Hnd Hx; cbn.
  - constructor; [exact Hx | constructor].
  - inversion Hnd as [| ? ? Ha Hl]; subst. constructor.
    + rewrite in_app_iff. intros [H | [H | H]]; [contradiction | | destruct H].
      subst. apply Hx. left. reflexivity.
    + apply IH; [exact Hl |]. intros H. apply Hx. right. exact H.
Qed.

Section Invariants.

Variable JWT_SECRET : string.
Variable hmac_sha256 : string -> string -> Jwt.claims -> string.
Variable bcrypt_hashpw : string -> string -> string.

(** What each writing request does to the store. *)
Lemma store_after_cases (w : write) (db : Db.t) :
  store_after JWT_SECRET hmac_sha256 bcrypt_hashpw w db
  = match w with
    | Register user_data new_id created updated salt utcnow =>
        if taken user_data db then db
        else Db.insert_user
               (UserDoc.mk (new_user user_data new_id created updated)
                  (bcrypt_hashpw (UserCreate.password user_data) salt)) db
    | CreateFoodItem food_data uid new_id utcnow =>
        insert_food_item (fst (create_food_item food_data uid new_id utcnow db)) db
    | LogMeal meal_data uid new_id utcnow =>
        match fst (log_meal meal_data uid new_id utcnow db) with
        | Ok entry => Db.insert_meal_entry entry db
        | Raise _ => db
        end
    | CreateExercise exercise_data uid new_id utcnow =>
        insert_exercise (fst (create_exercise exercise_data uid new_id utcnow db)) db
    | LogWorkout workout_data uid new_id utcnow =>
        match fst (log_workout workout_data uid new_id utcnow db) with
        | Ok entry => Db.insert_workout_entry entry db
        | Raise _ => db
        end
    | CreateGoal goal_data uid new_id created updated =>
        insert_goal (fst (create_goal goal_data uid new_id created updated db)) db
    | Startup new_id utcnow => create_seed_data new_id utcnow db
    end.
Proof.
  destruct w; cbn [store_after]; try reflexivity.
  - rewrite register_user_cases. destruct (taken user_data db); reflexivity.
  - pose proof (log_meal_cases meal_data current_user_id new_id utcnow db) as Hc.
    destruct (find_one _ (Db.food_items db)); cbv zeta in Hc; rewrite Hc; reflexivity.
  - pose proof (log_workout_cases workout_data current_user_id new_id utcnow db) as Hc.
    destruct (find_one _ (Db.exercises db)); [| rewrite Hc; reflexivity].
    destruct (Py.int_to_float _); cbv zeta in Hc; rewrite Hc; reflexivity.
Qed.

(** X7.  The store is append-only: a writing request leaves every
    collection with its old documents, unchanged and in place, as a
    prefix; so does any sequence of them. *)
Theorem store_is_append_only (ws : list write) (db : Db.t) :
  let db' := run JWT_SECRET hmac_sha256 bcrypt_hashpw ws db in
  (exists more, Db.users db' = (Db.users db ++ more)%list)
  /\ (exists more, Db.food_items db' = (Db.food_items db ++ more)%list)
  /\ (exists more, Db.meal_entries db' = (Db.meal_entries db ++ more)%list)
  /\ (exists more, Db.exercises db' = (Db.exercises db ++ more)%list)
  /\ (exists more, Db.workout_entries db' = (Db.workout_entries db ++ more)%list)
  /\ (exists more, Db.goals db' = (Db.goals db ++ more)%list).
Proof.
  cbv zeta. revert db. unfold run.
  induction ws as [| w ws IH]; intros db; cbn [fold_left].
  - repeat split; exists []; rewrite app_nil_r; reflexivity.
  - specialize (IH (store_after JWT_SECRET hmac_sha256 bcrypt_hashpw w db)).
    assert (Hone :
      (exists more, Db.users (store_after JWT_SECRET hmac_sha256 bcrypt_hashpw w db)
                    = (Db.users db ++ more)%list)
      /\ (exists more, Db.food_items (store_after JWT_SECRET hmac_sha256 bcrypt_hashpw w db)
                       = (Db.food_items db ++ more)%list)
      /\ (exists more, Db.meal_entries (store_after JWT_SECRET hmac_sha256 bcrypt_hashpw w db)
                       = (Db.meal_entries db ++ more)%list)
      /\ (exists more, Db.exercises (store_after JWT_SECRET hmac_sha256 bcrypt_hashpw w db)
                       = (Db.exercises db ++ more)%list)
      /\ (exists more, Db.workout_entries (store_after JWT_SECRET hmac_sha256 bcrypt_hashpw w db)
                       = (Db.workout_entries db ++ more)%list)
      /\ (exists more, Db.goals (store_after JWT_SECRET hmac_sha256 bcrypt_hashpw w db)
                       = (Db.goals db ++ more)%list)).
    { rewrite store_after_cases.
      destruct w;
        try match goal with |- context [if ?c then _ else _] => destruct c end;
        try match goal with |- context [match fst ?r with Ok _ => _ | Raise _ => _ end] =>
              destruct (fst r) end;
        rewrite ?create_seed_data_cases;
        cbn [Db.users Db.food_items Db.meal_entries Db.exercises Db.workout_entries
             Db.goals Db.insert_user Db.insert_meal_entry Db.insert_workout_entry
             insert_food_item insert_exercise insert_goal];
        repeat split;
        solve [ exists []; rewrite app_nil_r; reflexivity | eexists; reflexivity ]. }
    destruct IH as ([u1 Hu1] & [f1 Hf1] & [m1 Hm1] & [x1 Hx1] & [w1 Hw1] & [g1 Hg1]).
    destruct Hone as ([u0 Hu0] & [f0 Hf0] & [m0 Hm0] & [x0 Hx0] & [w0 Hw0] & [g0 Hg0]).
    rewrite Hu1, Hf1, Hm1, Hx1, Hw1, Hg1, Hu0, Hf0, Hm0, Hx0, Hw0, Hg0.
    repeat split; eexists; rewrite <- app_assoc; reflexivity.
Qed.

(** X8.  Registration keeps usernames and emails unique: if no two
    stored accounts share a username, nor an email, then none do after
    any sequence of writing requests. *)
Theorem identities_stay_unique (ws : list write) (db : Db.t) :
  List.NoDup (usernames db) ->
  List.NoDup (emails db) ->
  List.NoDup (usernames (run JWT_SECRET hmac_sha256 bcrypt_hashpw ws db))
  /\ List.NoDup (emails (run JWT_SECRET hmac_sha256 bcrypt_hashpw ws db)).
Proof.
  intros Hu He.
  apply (run_invariant JWT_SECRET hmac_sha256 bcrypt_hashpw
           (fun d => List.NoDup (usernames d) /\ List.NoDup (emails d)));
    [| split; assumption].
  clear. intros w db [Hu He]. rewrite store_after_cases.
  destruct w;
    try match goal with |- context [match fst ?r with Ok _ => _ | Raise _ => _ end] =>
          destruct (fst r) end;
    rewrite ?create_seed_data_cases; try (split; assumption).
  destruct (taken user_data db) eqn:Ht; [split; assumption |].
  unfold taken in Ht.
  assert (Hnot : forall d, In d (Db.users db) ->
            User.username (UserDoc.user d) <> UserCreate.username user_data
            /\ User.email (UserDoc.user d) <> UserCreate.email user_data).
  { intros d Hin.
    destruct (String.eqb_spec (User.username (UserDoc.user d))
                (UserCreate.username user_data)) as [Heq | Hne];
      [| destruct (String.eqb_spec (User.email (UserDoc.user d))
                     (UserCreate.email user_data)) as [Heq | Hne'];
         [| split; assumption]].
    - assert (Hex : existsb (fun d => String.eqb (User.username (UserDoc.user d))
                                        (UserCreate.username user_data)
                                      || String.eqb (User.email (UserDoc.user d))
                                           (UserCreate.email user_data))
                      (Db.users db) = true).
      { apply existsb_exists. exists d. split; [exact Hin |].
        rewrite Heq, String.eqb_refl. reflexivity. }
      rewrite Hex in Ht. discriminate.
    - assert (Hex : existsb (fun d => String.eqb (User.username (UserDoc.user d))
                                        (UserCreate.username user_data)
                                      || String.eqb (User.email (UserDoc.user d))
                                           (UserCreate.email user_data))
                      (Db.users db) = true).
      { apply existsb_exists. exists d. split; [exact Hin |].
        rewrite Heq, String.eqb_refl. apply orb_true_r. }
      rewrite Hex in Ht. discriminate. }
  unfold usernames, emails in *. cbn [Db.users Db.insert_user].
  rewrite !map_app. cbn [map UserDoc.user new_user User.username User.email].
  split; apply NoDup_snoc; try assumption.
  - intros Hin. apply in_map_iff in Hin as (d & Heq & Hd).
    destruct (Hnot d Hd) as [H _]. contradiction.
  - intros Hin. apply in_map_iff in Hin as (d & Heq & Hd).
    destruct (Hnot d Hd) as [_ H]. contradiction.
Qed.

Lemma meal_agrees_more (foods more : list FoodItem.t) (e : MealEntry.t) :
  meal_agrees foods e -> meal_agrees (foods ++ more) e.
Proof.
  intros (food & Hfind & H). exists food. split; [| exact H].
  apply find_app_some. exact Hfind.
Qed.

Lemma workout_agrees_more (exercises more : list Exercise.t) (e : WorkoutEntry.t) :
  workout_agrees exercises e -> workout_agrees (exercises ++ more) e.
Proof.
  intros (exercise & minutes & Hfind & H). exists exercise, minutes. split; [| exact H].
  apply find_app_some. exact Hfind.
Qed.

Lemma Forall_snoc {A} (P : A -> Prop) (l : list A) (x : A) :
  Forall P l -> P x -> Forall P (l ++ [x]).
Proof.
  intros Hl Hx. apply Forall_app. split; [exact Hl | constructor; [exact Hx | constructor]].
Qed.

(** X9.  Stored entries keep agreeing with the catalogs as they grow: if
    every meal entry and every workout entry agrees with the current
    catalogs, then so does every entry, old and new, after any sequence
    of writing requests. *)
Theorem entries_agree_with_catalogs (ws : list write) (db : Db.t) :
  Forall (meal_agrees (Db.food_items db)) (Db.meal_entries db) ->
  Forall (workout_agrees (Db.exercises db)) (Db.workout_entries db) ->
  let db' := run JWT_SECRET hmac_sha256 bcrypt_hashpw ws db in
  Forall (meal_agrees (Db.food_items db')) (Db.meal_entries db')
  /\ Forall (workout_agrees (Db.exercises db')) (Db.workout_entries db').
Proof.
  intros Hm Hw. cbv zeta.
  apply (run_invariant JWT_SECRET hmac_sha256 bcrypt_hashpw
           (fun d => Forall (meal_agrees (Db.food_items d)) (Db.meal_entries d)
                     /\ Forall (workout_agrees (Db.exercises d)) (Db.workout_entries d)));
    [| split; assumption].
  clear. intros w db [Hm Hw]. rewrite store_after_cases.
  destruct w.
  - destruct (taken user_data db); split; assumption.
  - cbn. split; [| exact Hw].
    eapply List.Forall_impl; [| exact Hm]. intros e. apply meal_agrees_more.
  - pose proof (log_meal_cases meal_data current_user_id new_id utcnow db) as Hc.
    destruct (find_one _ (Db.food_items db)) as [food |] eqn:Hfind;
      cbv zeta in Hc; rewrite Hc; cbn [fst]; [| split; assumption].
    cbn [Db.food_items Db.meal_entries Db.exercises Db.workout_entries
         Db.insert_meal_entry].
    split; [| exact Hw]. apply Forall_snoc; [exact Hm |].
    exists food. cbn. repeat split; try reflexivity. exact Hfind.
  - cbn. split; [exact Hm |].
    eapply List.Forall_impl; [| exact Hw]. intros e. apply workout_agrees_more.
  - pose proof (log_workout_cases workout_data current_user_id new_id utcnow db) as Hc.
    destruct (find_one _ (Db.exercises db)) as [exercise |] eqn:Hfind;
      [| rewrite Hc; cbn [fst]; split; assumption].
    destruct (Py.int_to_float _) as [minutes | err] eqn:Hconv;
      cbv zeta in Hc; rewrite Hc; cbn [fst]; [| split; assumption].
    cbn [Db.food_items Db.meal_entries Db.exercises Db.workout_entries
         Db.insert_workout_entry].
    split; [exact Hm |]. apply Forall_snoc; [exact Hw |].
    exists exercise, minutes. cbn. repeat split; try reflexivity; assumption.
  - cbn. split; assumption.
  - rewrite create_seed_data_cases. cbn. split.
    + eapply List.Forall_impl; [| exact Hm]. intros e. apply meal_agrees_more.
    + eapply List.Forall_impl; [| exact Hw]. intros e. apply workout_agrees_more.
Qed.

Variable mongo_sum : list float -> float.
Variable py_sum : list float -> float.

(** X10.  No request ever marks a goal achieved: if no stored goal is
    achieved, none is after any sequence of writing requests, and the
    dashboard's count of active goals is then the number of goals the
    goals list returns for the account. *)
Theorem goals_stay_active (ws : list write) (db : Db.t) (account : string)
    (now now' : datetime) :
  Forall (fun g => Goal.is_achieved g = false) (Db.goals db) ->
  let db' := run JWT_SECRET hmac_sha256 bcrypt_hashpw ws db in
  Forall (fun g => Goal.is_achieved g = false) (Db.goals db')
  /\ Dashboard.active_goals_count <$>
       ok_value (get_dashboard_stats mongo_sum py_sum account now now' db')
     = Some (Z.of_nat (length (get_user_goals account db'))).
Proof.
  intros H0. cbv zeta.
  assert (Hinv : Forall (fun g => Goal.is_achieved g = false)
                   (Db.goals (run JWT_SECRET hmac_sha256 bcrypt_hashpw ws db))).
  { apply (run_invariant JWT_SECRET hmac_sha256 bcrypt_hashpw
             (fun d => Forall (fun g => Goal.is_achieved g = false) (Db.goals d)));
      [| exact H0].
    clear. intros w db H. rewrite store_after_cases.
    destruct w;
      try match goal with |- context [if ?c then _ else _] => destruct c end;
      try match goal with |- context [match fst ?r with Ok _ => _ | Raise _ => _ end] =>
            destruct (fst r) end;
      rewrite ?create_seed_data_cases; try exact H.
    cbn. apply Forall_snoc; [exact H | reflexivity]. }
  split; [exact Hinv |].
  rewrite dashboard_windows. cbn [ok_value fmap option_fmap option_map
                                   Dashboard.active_goals_count].
  unfold get_user_goals, find_to_list, to_list. do 4 f_equal.
  apply filter_ext_in. intros g Hg.
  rewrite List.Forall_forall in Hinv. rewrite (Hinv g Hg). rewrite andb_true_r. reflexivity.
Qed.

End Invariants.

Lemma identities_stay_unique_witness :
  let ws := [Register sam "id-1" 10 11 "salt-1" 1000;
             Register sam_again "id-2" 20 21 "salt-2" 2000] in
  (List.NoDup (usernames Db.empty) /\ List.NoDup (emails Db.empty))
  /\ usernames (run "secret" sample_hmac sample_bcrypt ws Db.empty) = ["sam"]
  /\ List.NoDup (usernames (run "secret" sample_hmac sample_bcrypt ws Db.empty))
  /\ List.NoDup (emails (run "secret" sample_hmac sample_bcrypt ws Db.empty)).
Proof.
  cbv zeta. split; [split; constructor |]. split; [vm_compute; reflexivity |].
  apply (identities_stay_unique "secret" sample_hmac sample_bcrypt); constructor.
Defined.

Lemma entries_agree_with_catalogs_witness :
  let ws := [LogMeal (MealEntryCreate.mk "food-1" 150 "lunch") "account-1" "meal-1" 0;
             CreateFoodItem (FoodItemCreate.mk "Other" 1 2 3 4 None) "account-2" "food-1" 5] in
  let db' := run "secret" sample_hmac sample_bcrypt ws seeded_db in
  (Forall (meal_agrees (Db.food_items seeded_db)) (Db.meal_entries seeded_db)
   /\ Forall (workout_agrees (Db.exercises seeded_db)) (Db.workout_entries seeded_db))
  /\ length (Db.meal_entries db') = 1%nat
  /\ Forall (meal_agrees (Db.food_items db')) (Db.meal_entries db')
  /\ Forall (workout_agrees (Db.exercises db')) (Db.workout_entries db').
Proof.
  cbv zeta. split; [split; constructor |]. split; [vm_compute; reflexivity |].
  apply (entries_agree_with_catalogs "secret" sample_hmac sample_bcrypt); constructor.
Defined.

Lemma goals_stay_active_witness :
  let ws := [CreateGoal (GoalCreate.mk "weight_loss" None None) "account-1" "goal-1" 3 4] in
  let db' := run "secret" sample_hmac sample_bcrypt ws seeded_db in
  Forall (fun g => Goal.is_achieved g = false) (Db.goals seeded_db)
  /\ length (get_user_goals "account-1" db') = 1%nat
  /\ Forall (fun g => Goal.is_achieved g = false) (Db.goals db')
  /\ Dashboard.active_goals_count <$>
       ok_value (get_dashboard_stats sample_sum sample_sum "account-1" 7 8 db')
     = Some (Z.of_nat (length (get_user_goals "account-1" db'))).
Proof.
  cbv zeta. split; [constructor |]. split; [vm_compute; reflexivity |].
  apply (goals_stay_active "secret" sample_hmac sample_bcrypt sample_sum sample_sum).
  constructor.
Defined.

(* ================================================================== *)
(** * The dated routes, for any date parameter *)

Lemma get_meal_log_query (date : option date_param) (account : string)
    (now : datetime) (db : Db.t) :
  get_meal_log date account now db
  = (start <- window_start date now ;;
     Ok (firstn 1000 (List.filter (meal_query account start) (Db.meal_entries db)))).
Proof. reflexivity. Qed.

Lemma get_workout_log_query (date : option date_param) (account : string)
    (now : datetime) (db : Db.t) :
  get_workout_log date account now db
  = (start <- window_start date now ;;
     Ok (firstn 1000
           (List.filter (workout_query account start) (Db.workout_entries db)))).
Proof. reflexivity. Qed.

Lemma nutrition_summary_query (mongo_sum : list float -> float)
    (date : option date_param) (account : string) (now : datetime) (db : Db.t) :
  get_daily_nutrition_summary mongo_sum date account now db
  = (start <- window_start date now ;;
     Ok (aggregateNutrition mongo_sum
           (List.filter (meal_query account start) (Db.meal_entries db)))).
Proof.
  unfold get_daily_nutrition_summary, window_start.
  destruct (match date with Some d => _ | None => _ end) as [start | e];
    cbn [bind]; [| reflexivity].
  fold (meal_query account start). unfold aggregateNutrition.
  destruct (List.filter _ (Db.meal_entries db)); reflexivity.
Qed.

Lemma in_firstn {A} (n : nat) (l : list A) (x : A) : In x (firstn n l) -> In x l.
Proof.
  intros H. rewrite <- (firstn_skipn n l). apply in_or_app. left. exact H.
Qed.

Lemma filter_snoc {A} (q : A -> bool) (l : list A) (x : A) :
  List.filter q (l ++ [x]) = (List.filter q l ++ if q x then [x] else [])%list.
Proof.
  rewrite List.filter_app. cbn. destruct (q x); reflexivity.
Qed.


Lemma filter_foreign {A} (owner : A -> string) (account : string) (q : A -> bool)
    (l extra : list A) :
  (forall e, q e = true -> owner e = account) ->
  (forall e, In e extra -> owner e <> account) ->
  List.filter q (l ++ extra) = List.filter q l.
Proof.
  intros Hq Hextra. rewrite List.filter_app.
  assert (Hnil : List.filter q extra = []).
  { induction extra as [| x extra IH]; cbn; [reflexivity |].
    destruct (q x) eqn:Hx.
    - contradiction (Hextra x (or_introl eq_refl) (Hq x Hx)).
    - apply IH. intros e He. apply Hextra. right. exact He. }
  rewrite Hnil. apply app_nil_r.
Qed.

Lemma andb_owner (a b c : bool) : a && b && c = true -> a = true.
Proof. destruct a; [reflexivity | discriminate]. Qed.

Section Isolation.

Variable JWT_SECRET : string.
Variable hmac_sha256 : string -> string -> Jwt.claims -> string.
Variable bcrypt_hashpw : string -> string -> string.
Variable mongo_sum : list float -> float.
Variable py_sum : list float -> float.

(** What a writing request adds to the three owned collections belongs to
    the account it writes for. *)
Lemma written_entries_are_foreign (w : write) (account : string) (db : Db.t) :
  written_for w <> Some account ->
  let db' := store_after JWT_SECRET hmac_sha256 bcrypt_hashpw w db in
  (exists extra, Db.meal_entries db' = (Db.meal_entries db ++ extra)%list
     /\ forall e, In e extra -> MealEntry.user_id e <> account)
  /\ (exists extra, Db.workout_entries db' = (Db.workout_entries db ++ extra)%list
        /\ forall e, In e extra -> WorkoutEntry.user_id e <> account)
  /\ (exists extra, Db.goals db' = (Db.goals db ++ extra)%list
        /\ forall e, In e extra -> Goal.user_id e <> account).
Proof.
  intros Hw. cbv zeta. rewrite store_after_cases.
  assert (Hnil : forall (A : Type) (owner : A -> string) (l : list A),
            exists extra, l = (l ++ extra)%list
              /\ forall e, In e extra -> owner e <> account).
  { intros A owner l. exists []. split; [rewrite app_nil_r; reflexivity | intros e []]. }
  destruct w; cbn [written_for] in Hw.
  - destruct (taken user_data db); cbn; repeat split; apply Hnil.
  - cbn. repeat split; apply Hnil.
  - pose proof (log_meal_cases meal_data current_user_id new_id utcnow db) as Hc.
    destruct (find_one _ (Db.food_items db)); cbv zeta in Hc; rewrite Hc; cbn [fst];
      [| repeat split; apply Hnil].
    cbn [Db.meal_entries Db.workout_entries Db.goals Db.insert_meal_entry].
    split; [| split; apply Hnil].
    eexists. split; [reflexivity |]. intros e [<- | []]. cbn. congruence.
  - cbn. repeat split; apply Hnil.
  - pose proof (log_workout_cases workout_data current_user_id new_id utcnow db) as Hc.
    destruct (find_one _ (Db.exercises db)); [| rewrite Hc; cbn [fst]; repeat split; apply Hnil].
    destruct (Py.int_to_float _); cbv zeta in Hc; rewrite Hc; cbn [fst];
      [| repeat split; apply Hnil].
    cbn [Db.meal_entries Db.workout_entries Db.goals Db.insert_workout_entry].
    split; [apply Hnil | split; [| apply Hnil]].
    eexists. split; [reflexivity |]. intros e [<- | []]. cbn. congruence.
  - cbn [create_goal fst insert_goal Db.meal_entries Db.workout_entries Db.goals].
    split; [apply Hnil | split; [apply Hnil |]].
    eexists. split; [reflexivity |]. intros e [<- | []]. cbn. congruence.
  - rewrite create_seed_data_cases. cbn. repeat split; apply Hnil.
Qed.

(** X12.  What is written for one account never shows to another: after
    any writing request that is not made for the account (a log or a
    goal of someone else, a registration, a catalog entry, the startup
    hook), the account's meal log, nutrition summary, workout log, goals
    list and dashboard reply exactly as before. *)
Theorem other_writes_do_not_show (w : write) (account : string) (db : Db.t)
    (date : option date_param) (now now' : datetime) :
  written_for w <> Some account ->
  let db' := store_after JWT_SECRET hmac_sha256 bcrypt_hashpw w db in
  get_meal_log date account now db' = get_meal_log date account now db
  /\ get_daily_nutrition_summary mongo_sum date account now db'
     = get_daily_nutrition_summary mongo_sum date account now db
  /\ get_workout_log date account now db' = get_workout_log date account now db
  /\ get_user_goals account db' = get_user_goals account db
  /\ get_dashboard_stats mongo_sum py_sum account now now' db'
     = get_dashboard_stats mongo_sum py_sum account now now' db.
Proof.
  intros Hw. cbv zeta.
  destruct (written_entries_are_foreign w account db Hw)
    as ((em & Hm & Hem) & (ew & Hwk & Hew) & (eg & Hg & Heg)).
  assert (Hmeals : forall start,
            List.filter (meal_query account start)
              (Db.meal_entries (store_after JWT_SECRET hmac_sha256 bcrypt_hashpw w db))
            = List.filter (meal_query account start) (Db.meal_entries db)).
  { intros start. rewrite Hm.
    apply (filter_foreign MealEntry.user_id account); [| exact Hem].
    intros e He. apply andb_owner in He. apply String.eqb_eq. exact He. }
  assert (Hworkouts : forall start,
            List.filter (workout_query account start)
              (Db.workout_entries (store_after JWT_SECRET hmac_sha256 bcrypt_hashpw w db))
            = List.filter (workout_query account start) (Db.workout_entries db)).
  { intros start. rewrite Hwk.
    apply (filter_foreign WorkoutEntry.user_id account); [| exact Hew].
    intros e He. apply andb_owner in He. apply String.eqb_eq. exact He. }
  assert (Hsummary : forall d n,
            get_daily_nutrition_summary mongo_sum d account n
              (store_after JWT_SECRET hmac_sha256 bcrypt_hashpw w db)
            = get_daily_nutrition_summary mongo_sum d account n db).
  { intros d n. rewrite !nutrition_summary_query.
    destruct (window_start d n); cbn [bind]; [| reflexivity]. rewrite Hmeals. reflexivity. }
  split; [| split; [| split; [| split]]].
  - rewrite !get_meal_log_query.
    destruct (window_start date now); cbn [bind]; [| reflexivity].
    rewrite Hmeals. reflexivity.
  - apply Hsummary.
  - rewrite !get_workout_log_query.
    destruct (window_start date now); cbn [bind]; [| reflexivity].
    rewrite Hworkouts. reflexivity.
  - unfold get_user_goals, find_to_list, to_list. rewrite Hg. f_equal.
    apply (filter_foreign Goal.user_id account); [| exact Heg].
    intros e He. apply String.eqb_eq. exact He.
  - unfold get_dashboard_stats. rewrite Hsummary.
    unfold find_to_list, to_list.
    fold (workout_query account (at_midnight now)). rewrite Hworkouts.
    rewrite Hg.
    rewrite (filter_foreign Goal.user_id account
               (fun g => String.eqb (Goal.user_id g) account
                         && Bool.eqb (Goal.is_achieved g) false)
               (Db.goals db) eg); [reflexivity | | exact Heg].
    intros e He. apply andb_true_iff in He as [He _]. apply String.eqb_eq. exact He.
Qed.

End Isolation.

Lemma other_writes_do_not_show_witness :
  let w := LogMeal (MealEntryCreate.mk "food-1" 150 "lunch") "account-2" "meal-9"
             (sample_day_start + 7) in
  let db' := store_after "secret" sample_hmac sample_bcrypt w boundary_db in
  written_for w <> Some "account-1"
  /\ length (Db.meal_entries db') = 4%nat
  /\ get_meal_log (Some (DateOnly sample_day)) "account-1" 0 db'
     = get_meal_log (Some (DateOnly sample_day)) "account-1" 0 boundary_db.
Proof.
  cbv zeta. split; [discriminate |]. split; [vm_compute; reflexivity |].
  apply (other_writes_do_not_show "secret" sample_hmac sample_bcrypt sample_sum sample_sum
           _ "account-1" boundary_db (Some (DateOnly sample_day)) 0 0).
  discriminate.
Defined.

Lemma meal_query_spec (account : string) (start : datetime) (e : MealEntry.t) :
  meal_query account start e = true
  <-> MealEntry.user_id e = account
      /\ start <= MealEntry.logged_at e < start + us_per_day.
Proof.
  unfold meal_query, one_day.
  rewrite !andb_true_iff, String.eqb_eq, Z.leb_le, Z.ltb_lt. tauto.
Qed.

Lemma workout_query_spec (account : string) (start : datetime) (e : WorkoutEntry.t) :
  workout_query account start e = true
  <-> WorkoutEntry.user_id e = account
      /\ start <= WorkoutEntry.completed_at e < start + us_per_day.
Proof.
  unfold workout_query, one_day.
  rewrite !andb_true_iff, String.eqb_eq, Z.leb_le, Z.ltb_lt. tauto.
Qed.

(** A stamp lies in the 24 hours from the start of day [day] exactly
    when [day] is its own day. *)
Lemma stamp_day (day t : Z) :
  day * us_per_day <= t < day * us_per_day + us_per_day <-> t / us_per_day = day.
Proof.
  pose proof (Z.div_mod t us_per_day ltac:(discriminate)) as Hd.
  pose proof (Z.mod_pos_bound t us_per_day ltac:(reflexivity)) as Hm.
  unfold us_per_day in *. split; intros H.
  - symmetry. apply (Z.div_unique t 86400000000 day (t - day * 86400000000)); lia.
  - subst day. lia.
Qed.

Section DatedRoutes.

Variable mongo_sum : list float -> float.

(** X13.  An absent [date], an empty one and today's calendar date all
    give the same replies from the meal log, the nutrition summary and
    the workout log; a calendar date followed by the time 00:00:00 gives
    what the calendar date alone gives; a [date] that is not in ISO
    format makes all three raise [ValueError]. *)
Theorem absent_date_is_today (account : string) (now : datetime) (db : Db.t) :
  let today := Some (DateOnly (now / us_per_day)) in
  (get_meal_log None account now db = get_meal_log today account now db
   /\ get_meal_log (Some DateEmpty) account now db = get_meal_log today account now db
   /\ get_daily_nutrition_summary mongo_sum None account now db
      = get_daily_nutrition_summary mongo_sum today account now db
   /\ get_daily_nutrition_summary mongo_sum (Some DateEmpty) account now db
      = get_daily_nutrition_summary mongo_sum today account now db
   /\ get_workout_log None account now db = get_workout_log today account now db
   /\ get_workout_log (Some DateEmpty) account now db
      = get_workout_log today account now db)
  /\ (forall day,
        get_meal_log (Some (DateWithTime (day * us_per_day))) account now db
        = get_meal_log (Some (DateOnly day)) account now db
        /\ get_workout_log (Some (DateWithTime (day * us_per_day))) account now db
           = get_workout_log (Some (DateOnly day)) account now db)
  /\ (get_meal_log (Some DateMalformed) account now db = Raise ValueError
      /\ get_daily_nutrition_summary mongo_sum (Some DateMalformed) account now db
         = Raise ValueError
      /\ get_workout_log (Some DateMalformed) account now db = Raise ValueError).
Proof.
  cbv zeta.
  assert (Hstart : forall d, d = None \/ d = Some DateEmpty ->
            window_start d now = window_start (Some (DateOnly (now / us_per_day))) now).
  { intros d [-> | ->]; cbn; rewrite at_midnight_is_day_start; reflexivity. }
  split; [| split].
  - rewrite !get_meal_log_query, !get_workout_log_query, !nutrition_summary_query.
    rewrite (Hstart None), (Hstart (Some DateEmpty)) by auto.
    repeat split; reflexivity.
  - intros day. split; reflexivity.
  - repeat split; reflexivity.
Qed.

(** X14.  Each entry is listed under its own calendar day and no other:
    whatever the meal log or the workout log returns for a calendar date
    was stamped on that date, and the length of the meal log is the
    summary's meal count, cut at 1000. *)
Theorem entries_listed_under_their_day (account : string) (day : Z)
    (now : datetime) (db : Db.t) :
  (forall reply e,
     get_meal_log (Some (DateOnly day)) account now db = Ok reply ->
     In e reply -> MealEntry.logged_at e / us_per_day = day)
  /\ (forall reply e,
        get_workout_log (Some (DateOnly day)) account now db = Ok reply ->
        In e reply -> WorkoutEntry.completed_at e / us_per_day = day)
  /\ (forall date reply summary,
        get_meal_log date account now db = Ok reply ->
        get_daily_nutrition_summary mongo_sum date account now db = Ok summary ->
        Z.of_nat (length reply) = Z.min 1000 (NutritionSummary.meal_count summary)).
Proof.
  split; [| split].
  - intros reply e. rewrite get_meal_log_query. cbn [window_start str_truthy fromisoformat bind].
    intros [= <-] Hin. apply in_firstn, filter_In in Hin as [_ Hq].
    apply meal_query_spec in Hq as [_ Hq]. apply stamp_day. exact Hq.
  - intros reply e. rewrite get_workout_log_query.
    cbn [window_start str_truthy fromisoformat bind].
    intros [= <-] Hin. apply in_firstn, filter_In in Hin as [_ Hq].
    apply workout_query_spec in Hq as [_ Hq]. apply stamp_day. exact Hq.
  - intros date reply summary. rewrite get_meal_log_query, nutrition_summary_query.
    destruct (window_start date now) as [start | err]; cbn [bind]; [| discriminate].
    intros [= <-] [= <-]. rewrite length_firstn.
    assert (Hcount : NutritionSummary.meal_count
                       (aggregateNutrition mongo_sum
                          (List.filter (meal_query account start) (Db.meal_entries db)))
                     = Z.of_nat (length (List.filter (meal_query account start)
                                           (Db.meal_entries db)))).
    { unfold aggregateNutrition. destruct (List.filter _ _); reflexivity. }
    rewrite Hcount. lia.
Qed.

End DatedRoutes.

(* ================================================================== *)
(** * How the routes compose *)

Lemma firstn_snoc_full {A} (n : nat) (l : list A) (x : A) :
  firstn n (l ++ [x]) = if (length l <? n)%nat then (firstn n l ++ [x])%list
                        else firstn n l.
Proof.
  destruct (Nat.ltb_spec (length l) n) as [Hlt | Hge].
  - rewrite firstn_app, (firstn_all2 l) by lia. f_equal.
    apply firstn_all2. cbn. lia.
  - rewrite firstn_app. replace (n - length l)%nat with 0%nat by lia.
    cbn. apply app_nil_r.
Qed.

Section Composition.

Variable mongo_sum : list float -> float.
Variable py_sum : list float -> float.

(** X15.  The dashboard always replies, and its figures are those of the
    other routes: its nutrition block is the nutrition summary for an
    absent date, its workout figures are computed from what the workout
    log returns for an absent date, at most 1000 entries, and it counts
    at most 1000 goals. *)
Theorem dashboard_agrees_with_routes (account : string) (now now' : datetime)
    (db : Db.t) :
  exists stats log,
    get_dashboard_stats mongo_sum py_sum account now now' db = Ok stats
    /\ get_daily_nutrition_summary mongo_sum None account now' db
       = Ok (Dashboard.nutrition stats)
    /\ get_workout_log None account now db = Ok log
    /\ WorkoutStats.workout_count (Dashboard.workouts stats) = Z.of_nat (length log)
    /\ WorkoutStats.total_workout_time (Dashboard.workouts stats)
       = fold_left Z.add (map WorkoutEntry.duration log) 0
    /\ WorkoutStats.total_calories_burned (Dashboard.workouts stats)
       = Py.round2 (py_sum (map WorkoutEntry.calories_burned log))
    /\ WorkoutStats.workout_count (Dashboard.workouts stats) <= 1000
    /\ 0 <= Dashboard.active_goals_count stats <= 1000.
Proof.
  unfold get_dashboard_stats. rewrite nutrition_summary_query.
  cbn [window_start bind]. eexists. eexists.
  split; [reflexivity |]. split; [reflexivity |].
  split; [reflexivity |].
  cbn [Dashboard.workouts Dashboard.active_goals_count WorkoutStats.workout_count
       WorkoutStats.total_workout_time WorkoutStats.total_calories_burned].
  unfold find_to_list, to_list. rewrite !length_firstn.
  repeat split; try reflexivity; lia.
Qed.


End Composition.


(* ================================================================== *)
(** * Startup, failed logs, new catalog items, negative amounts *)

(** X17.  The startup hook is idempotent and touches the catalogs only:
    run again on the store it left, with whatever ids and clock, it
    changes nothing; it fills a catalog only when that catalog is empty
    (with 8 foods, with 5 exercises), leaves a non-empty one as it is,
    and leaves users, logs and goals alone. *)
Theorem seeding_is_idempotent (new_id new_id' : nat -> string)
    (utcnow utcnow' : nat -> datetime) (db : Db.t) :
  let db1 := create_seed_data new_id utcnow db in
  create_seed_data new_id' utcnow' db1 = db1
  /\ (Db.users db1 = Db.users db
      /\ Db.meal_entries db1 = Db.meal_entries db
      /\ Db.workout_entries db1 = Db.workout_entries db
      /\ Db.goals db1 = Db.goals db)
  /\ (Db.food_items db <> [] -> Db.food_items db1 = Db.food_items db)
  /\ (Db.exercises db <> [] -> Db.exercises db1 = Db.exercises db)
  /\ (Db.food_items db = [] -> length (Db.food_items db1) = 8%nat)
  /\ (Db.exercises db = [] -> length (Db.exercises db1) = 5%nat).
Proof.
  cbv zeta. rewrite !create_seed_data_cases.
  destruct db as [us fs ms xs ws gs].
  cbn [Db.users Db.food_items Db.meal_entries Db.exercises Db.workout_entries Db.goals].
  split; [| split; [repeat split | split; [| split; [| split]]]].
  - destruct fs, xs; cbn; rewrite ?app_nil_r; reflexivity.
  - intros H. destruct fs; [contradiction | apply app_nil_r].
  - intros H. destruct xs; [contradiction | apply app_nil_r].
  - intros ->. reflexivity.
  - intros ->. reflexivity.
Qed.


(** X19.  A food item just created is listed by the catalog route only
    if the catalog held fewer than 1000 items; listed or not, it can be
    logged against at once, provided its id was not in use, and the
    entry takes its name and densities. *)
Theorem created_food_item_listing (food_data : FoodItemCreate.t)
    (account new_id : string) (utcnow : datetime) (db : Db.t) :
  let item := fst (create_food_item food_data account new_id utcnow db) in
  let db' := snd (create_food_item food_data account new_id utcnow db) in
  get_food_items db'
    = (if (length (Db.food_items db) <? 1000)%nat
       then (get_food_items db ++ [item])%list
       else get_food_items db)
  /\ ((forall food, In food (Db.food_items db) -> FoodItem.id food <> new_id) ->
      forall quantity meal_type caller entry_id stamp,
      exists entry,
        log_meal (MealEntryCreate.mk new_id quantity meal_type) caller entry_id stamp db'
        = (Ok entry, Db.insert_meal_entry entry db')
        /\ MealEntry.food_name entry = FoodItemCreate.name food_data
        /\ MealEntry.calories entry
           = scaleNutrition (FoodItemCreate.calories_per_100g food_data) quantity
        /\ MealEntry.protein entry
           = scaleNutrition (FoodItemCreate.protein_per_100g food_data) quantity
        /\ MealEntry.carbs entry
           = scaleNutrition (FoodItemCreate.carbs_per_100g food_data) quantity
        /\ MealEntry.fat entry
           = scaleNutrition (FoodItemCreate.fat_per_100g food_data) quantity).
Proof.
  cbv zeta. split.
  - unfold get_food_items, find_to_list, to_list. rewrite !filter_all.
    cbn [create_food_item snd fst insert_food_item Db.food_items].
    apply firstn_snoc_full.
  - intros Hfresh quantity meal_type caller entry_id stamp.
    pose proof (log_meal_cases (MealEntryCreate.mk new_id quantity meal_type)
                  caller entry_id stamp
                  (snd (create_food_item food_data account new_id utcnow db))) as Hc.
    cbn [create_food_item snd insert_food_item Db.food_items
         MealEntryCreate.food_item_id] in Hc.
    unfold find_one in Hc. rewrite find_app_none in Hc.
    + cbn [find FoodItem.id] in Hc. rewrite String.eqb_refl in Hc. cbv zeta in Hc.
      eexists. split; [exact Hc |]. repeat split.
    + destruct (find _ (Db.food_items db)) as [food |] eqn:Hfind; [| reflexivity].
      apply find_some in Hfind as [Hin Hid]. apply String.eqb_eq in Hid.
      contradiction (Hfresh food Hin Hid).
Qed.

Lemma float_opp_involutive (x : float) : (- - x = x)%float.
Proof.
  apply Prim2SF_inj. rewrite !opp_spec.
  destruct (Prim2SF x) as [[] | [] | | [] m e]; reflexivity.
Qed.

Lemma SFmul_opp_r (x y : spec_float) :
  SFmul prec emax x (SFopp y) = SFopp (SFmul prec emax x y).
Proof.
  destruct x as [sx | sx | | sx mx ex], y as [sy | sy | | sy my ey];
    try reflexivity; try (destruct sx, sy; reflexivity).
  unfold SFopp at 1, SFmul. rewrite SFopp_binary_round_aux.
  destruct sx, sy; reflexivity.
Qed.

Lemma float_mul_opp_r (x y : float) : (x * - y = - (x * y))%float.
Proof.
  apply Prim2SF_inj. rewrite mul_spec, !opp_spec, mul_spec. apply SFmul_opp_r.
Qed.

(** [round(-x, 2)] is [-round(x, 2)]. *)
Lemma round2_opp (x : float) : Py.round2 (- x) = (- Py.round2 x)%float.
Proof.
  unfold Py.round2. rewrite opp_spec.
  destruct (Prim2SF x) as [s | s | | s m e]; cbn [SFopp]; try reflexivity.
  destruct (Py.centi_mag m e <? 2 ^ 53); [| reflexivity].
  destruct s; cbn [negb]; [rewrite float_opp_involutive |]; reflexivity.
Qed.

(** X20.  Nothing clips a negative amount: logging [-q] grams of a food
    stores the quantity [-q] and, field by field, exactly the opposite
    of what logging [q] grams stores. *)
Theorem negative_quantity_mirrors (food_item_id meal_type account new_id : string)
    (quantity : float) (utcnow : datetime) (db d1 d2 : Db.t) (e1 e2 : MealEntry.t) :
  log_meal (MealEntryCreate.mk food_item_id quantity meal_type) account new_id utcnow db
    = (Ok e1, d1) ->
  log_meal (MealEntryCreate.mk food_item_id (- quantity) meal_type) account new_id utcnow db
    = (Ok e2, d2) ->
  MealEntry.quantity e2 = (- MealEntry.quantity e1)%float
  /\ MealEntry.calories e2 = (- MealEntry.calories e1)%float
  /\ MealEntry.protein e2 = (- MealEntry.protein e1)%float
  /\ MealEntry.carbs e2 = (- MealEntry.carbs e1)%float
  /\ MealEntry.fat e2 = (- MealEntry.fat e1)%float.
Proof.
  assert (Hscale : forall density,
            scaleNutrition density (- quantity) = (- scaleNutrition density quantity)%float).
  { intros density. unfold scaleNutrition.
    rewrite float_div_opp_l, float_mul_opp_r. apply round2_opp. }
  pose proof (log_meal_cases (MealEntryCreate.mk food_item_id quantity meal_type)
                account new_id utcnow db) as H1.
  pose proof (log_meal_cases (MealEntryCreate.mk food_item_id (- quantity) meal_type)
                account new_id utcnow db) as H2.
  cbn [MealEntryCreate.food_item_id MealEntryCreate.quantity] in H1, H2.
  destruct (find_one _ (Db.food_items db)) as [food |]; cbv zeta in H1, H2;
    rewrite H1, H2; [| discriminate].
  intros [= <- <-] [= <- <-]. cbn. rewrite !Hscale. repeat split.
Qed.

Lemma negative_quantity_mirrors_witness :
  exists e1 e2,
    log_meal (MealEntryCreate.mk "food-1" 150 "lunch") "account-1" "meal-1" 0 seeded_db
      = (Ok e1, Db.insert_meal_entry e1 seeded_db)
    /\ log_meal (MealEntryCreate.mk "food-1" (-150) "lunch") "account-1" "meal-1" 0 seeded_db
      = (Ok e2, Db.insert_meal_entry e2 seeded_db)
    /\ MealEntry.calories e1 = 247.5%float
    /\ MealEntry.calories e2 = (- MealEntry.calories e1)%float.
Proof.
  eexists. eexists.
  split; [vm_compute; reflexivity |]. split; [vm_compute; reflexivity |].
  split; [reflexivity |].
  exact (proj1 (proj2 (negative_quantity_mirrors "food-1" "lunch" "account-1" "meal-1"
                         150 0 seeded_db _ _ _ _ eq_refl eq_refl))).
Defined.

(** X21.  The exercise catalog route returns exercises of the requested
    type only, all of them being stored exercises, and without a type
    the first 1000 of the catalog; an exercise just created is in the
    reply for its type exactly when fewer than 1000 exercises of that
    type were stored, and never in the reply for another type. *)
Theorem exercises_are_filtered_by_type (db : Db.t) :
  (forall ty x, In x (get_exercises (Some ty) db) ->
     In x (Db.exercises db) /\ Exercise.type x = ty)
  /\ get_exercises None db = firstn 1000 (Db.exercises db)
  /\ (forall exercise_data account new_id utcnow ty,
        let created := fst (create_exercise exercise_data account new_id utcnow db) in
        let db' := snd (create_exercise exercise_data account new_id utcnow db) in
        get_exercises (Some ty) db'
        = if String.eqb (ExerciseCreate.type exercise_data) ty
             && (length (List.filter (fun x => String.eqb (Exercise.type x) ty)
                           (Db.exercises db)) <? 1000)%nat
          then (get_exercises (Some ty) db ++ [created])%list
          else get_exercises (Some ty) db).
Proof.
  split; [| split].
  - intros ty x Hin. unfold get_exercises, find_to_list, to_list in Hin.
    apply in_firstn, filter_In in Hin as [Hin Hty]. apply String.eqb_eq in Hty.
    split; assumption.
  - unfold get_exercises, find_to_list, to_list. rewrite filter_all. reflexivity.
  - intros exercise_data account new_id utcnow ty. cbv zeta.
    unfold get_exercises, find_to_list, to_list.
    cbn [create_exercise fst snd insert_exercise Db.exercises].
    rewrite filter_snoc. cbn [Exercise.type].
    destruct (String.eqb (ExerciseCreate.type exercise_data) ty); cbn [andb].
    + apply firstn_snoc_full.
    + rewrite app_nil_r. reflexivity.
Qed.


